(** * Propalytic: the house-price inference pipeline of [src/models/predictor.py]

    A shallow embedding of [HousePricePredictor] (artifact loading, categorical
    encoding, full-vector assembly, prediction and prediction info) and of the
    confidence label computed by [display_confidence_interval] in
    [src/components/prediction_display.py].

    Numbers: Python [int] is [Z]; Python [float] / numpy [float64] is idealised
    as a real number [R], so [np.exp] is [exp] and [np.std] is defined with
    [sqrt].  Exceptions are explicit: a computation yields an [outcome].

    What the idealisation leaves out: rounding, overflow and underflow of
    [float64] (so [np.exp] never reaches [0.0] or [inf] here, [float] of a
    huge [int] never overflows, and [int(...)] of a difference is taken of the
    exact difference), and the truth value of a model object, which is read as
    "the attribute is not [None]". *)

From Stdlib Require Import String List ZArith Reals Lra Lia Bool DecimalString.
From Stdlib Require Import Permutation Sorted.
Import ListNotations.

Open Scope string_scope.
Open Scope Z_scope.
Open Scope R_scope.

(* ================================================================== *)
(** ** The Python fragment the predictor relies on *)

Module Py.

(** An exception: its class name and [str(e)]. *)
Record exn : Type := Exn { exn_type : string; exn_msg : string }.

Definition ValueError (msg : string) : exn := Exn "ValueError" msg.
Definition TypeError (msg : string) : exn := Exn "TypeError" msg.
Definition IndexError (msg : string) : exn := Exn "IndexError" msg.
Definition AttributeError (msg : string) : exn := Exn "AttributeError" msg.

(** The result of running a piece of Python: it returns or it raises. *)
Inductive outcome (A : Type) : Type :=
| Returned (a : A)
| Raised (e : exn).
Arguments Returned {A} a.
Arguments Raised {A} e.

Definition bind {A B : Type} (c : outcome A) (k : A -> outcome B) : outcome B :=
  match c with
  | Returned a => k a
  | Raised e => Raised e
  end.

(** A list comprehension whose element expression may raise. *)
Fixpoint mapM {A B : Type} (f : A -> outcome B) (l : list A) : outcome (list B) :=
  match l with
  | [] => Returned []
  | a :: l' =>
      bind (f a) (fun b => bind (mapM f l') (fun bs => Returned (b :: bs)))
  end.

(** The values a feature dictionary holds: numbers and category codes. *)
Inductive value : Type :=
| VInt (z : Z)
| VFloat (r : R)
| VStr (s : string).

Definition is_number (v : value) : bool :=
  match v with
  | VInt _ | VFloat _ => true
  | VStr _ => false
  end.

(** The real number a numeric value stands for (0 for a string). *)
Definition real_of (v : value) : R :=
  match v with
  | VInt z => IZR z
  | VFloat r => r
  | VStr _ => 0
  end.

(** A [dict] with [str] keys, in insertion order. *)
Definition dict (V : Type) : Type := list (string * V).

Fixpoint get {V : Type} (d : dict V) (k : string) : option V :=
  match d with
  | [] => None
  | (k', v) :: d' => if String.eqb k k' then Some v else get d' k
  end.

(** [d.get(k, default)] *)
Definition get_default {V : Type} (d : dict V) (k : string) (default : V) : V :=
  match get d k with
  | Some v => v
  | None => default
  end.

(** [d[k] = v]: an existing key keeps its position, a new one goes last. *)
Fixpoint set {V : Type} (d : dict V) (k : string) (v : V) : dict V :=
  match d with
  | [] => [(k, v)]
  | (k', v') :: d' =>
      if String.eqb k k' then (k', v) :: d' else (k', v') :: set d' k v
  end.

(** [{**d, k1: v1, ..., kn: vn}]: the literal's entries are stored after
    (hence over) those of [d], left to right. *)
Definition update {V : Type} (d : dict V) (entries : list (string * V)) : dict V :=
  fold_left (fun acc kv => set acc (fst kv) (snd kv)) entries d.

Definition keys {V : Type} (d : dict V) : list string := map fst d.

(** [len(d)] *)
Definition len {V : Type} (d : dict V) : Z := Z.of_nat (length d).

(** [x in l] for a list of strings. *)
Fixpoint contains (l : list string) (x : string) : bool :=
  match l with
  | [] => false
  | y :: l' => if String.eqb x y then true else contains l' x
  end.

(** [repr(s)] of a string without quotes or escapes in it. *)
Definition repr (s : string) : string := "'" ++ s ++ "'".

(** [str(n)] *)
Definition str_of_nat (n : nat) : string :=
  NilZero.string_of_uint (Nat.to_uint n).

(** [l.index(x)] *)
Fixpoint index_from (l : list string) (x : string) (i : nat) : outcome nat :=
  match l with
  | [] => Raised (ValueError (repr x ++ " is not in list"))
  | y :: l' => if String.eqb x y then Returned i else index_from l' x (S i)
  end.

Definition index (l : list string) (x : string) : outcome nat := index_from l x 0.

(** [row[i]] on a numpy row of [size] cells. *)
Definition take_cell (row : list R) (i : nat) : outcome R :=
  match nth_error row i with
  | Some r => Returned r
  | None =>
      Raised (IndexError ("index " ++ str_of_nat i
                          ++ " is out of bounds for axis 1 with size "
                          ++ str_of_nat (length row)))
  end.

(** [max(0, x)]: the int [0] unless [x > 0]. *)
Definition max0 (x : R) : value :=
  if Rlt_dec 0 x then VFloat x else VInt 0.

Fixpoint sum (xs : list R) : R :=
  match xs with
  | [] => 0
  | x :: xs' => x + sum xs'
  end.

Definition mean (xs : list R) : R := sum xs / INR (length xs).

(** [np.std(xs)] with numpy's default [ddof=0]:
    [sqrt(mean(abs(x - x.mean())**2))], the divisor being [len(xs)]. *)
Definition np_std (xs : list R) : R :=
  sqrt (mean (map (fun x => Rsqr (Rabs (x - mean xs))) xs)).

End Py.

Import Py.

Declare Scope py_scope.
Notation "x <- c ;; k" := (bind c (fun x => k))
  (at level 61, c at next level, right associativity) : py_scope.
Open Scope py_scope.

(* ================================================================== *)
(** ** The serialized artifacts and the predictor object *)

(** One tree of the ensemble: [tree.predict(feature_array)[0]]. *)
Record Estimator : Type := { tree_predict : list R -> outcome R }.

(** The regression model as unpickled by [joblib.load]:
    [model.predict(model_input)[0]] on a one-row input, and the optional
    attributes [estimators_] and [feature_names_in_] ([None]: no such
    attribute, [hasattr] is false). *)
Record Model : Type := {
  predict : list R -> outcome R;
  estimators_ : option (list Estimator);
  feature_names_in_ : option (list string)
}.

(** The normalization transform: [scaler.transform(full_df)] on a one-row
    frame, and its optional recorded feature order. *)
Record Scaler : Type := {
  transform : list R -> outcome (list R);
  scaler_feature_names_in_ : option (list string)
}.

(** The attributes of [HousePricePredictor] that prediction reads. *)
Record HousePricePredictor : Type := {
  model : option Model;
  scaler : option Scaler;
  model_features : option (list string);
  scaler_features : option (list string)
}.

(** What the constructor finds on disk.  A [.joblib] entry is [None] when
    [os.path.exists] is false and otherwise what [joblib.load] does; a CSV
    entry is the [selected_features] column, [None] when reading it raises. *)
Record Artifacts : Type := {
  house_price_model_joblib : option (outcome Model);
  scaler_joblib : option (outcome Scaler);
  data_selected_features_csv : option (list string);
  src_data_selected_features_csv : option (list string)
}.

(** The hardcoded list of [_load_model] ("Fallback to the 21 key features"). *)
Definition fallback_model_features : list string :=
  [ "MSSubClass"; "MSZoning"; "Neighborhood"; "OverallQual"; "YearRemodAdd";
    "RoofStyle"; "BsmtQual"; "BsmtExposure"; "HeatingQC"; "CentralAir";
    "1stFlrSF"; "GrLivArea"; "BsmtFullBath"; "KitchenQual"; "Fireplaces";
    "FireplaceQu"; "GarageType"; "GarageFinish"; "GarageCars"; "PavedDrive";
    "SaleCondition" ].

(** [_load_model]: the values left in [self.model] and [self.model_features]. *)
Definition _load_model (a : Artifacts) : option Model * option (list string) :=
  match house_price_model_joblib a with
  | Some (Returned m) =>
      let features :=
        match feature_names_in_ m with
        | Some names => names
        | None =>
            match data_selected_features_csv a with
            | Some names => names
            | None =>
                match src_data_selected_features_csv a with
                | Some names => names
                | None => fallback_model_features
                end
            end
        end in
      (Some m, Some features)
  | Some (Raised _) => (None, None)   (* except Exception: st.error *)
  | None => (None, None)              (* model file not found: st.error *)
  end.

(** [_load_scaler]: the values left in [self.scaler] and [self.scaler_features]. *)
Definition _load_scaler (a : Artifacts) : option Scaler * option (list string) :=
  match scaler_joblib a with
  | Some (Returned s) => (Some s, scaler_feature_names_in_ s)
  | Some (Raised _) => (None, None)
  | None => (None, None)
  end.

(** [HousePricePredictor.__init__] *)
Definition init (a : Artifacts) : HousePricePredictor :=
  let '(m, mf) := _load_model a in
  let '(s, sf) := _load_scaler a in
  {| model := m; scaler := s; model_features := mf; scaler_features := sf |}.

(* ================================================================== *)
(** ** Full-vector assembly *)

(** The entries written after [**user_inputs] in the literal [default_values]
    of [create_full_feature_vector], in source order. *)
Definition hardcoded_defaults : list (string * value) :=
  [ ("LotFrontage", VFloat 70); ("LotArea", VFloat 8000); ("Street", VInt 1);
    ("Alley", VInt 0); ("LotShape", VInt 3); ("LandContour", VInt 0);
    ("Utilities", VInt 0); ("LotConfig", VInt 4); ("LandSlope", VInt 0);
    ("Condition1", VInt 2); ("Condition2", VInt 2); ("BldgType", VInt 0);
    ("HouseStyle", VInt 5); ("OverallCond", VInt 5); ("YearBuilt", VInt 30);
    ("RoofMatl", VInt 0); ("Exterior1st", VInt 12); ("Exterior2nd", VInt 12);
    ("MasVnrType", VInt 1); ("MasVnrArea", VFloat 100); ("ExterQual", VInt 3);
    ("ExterCond", VInt 3); ("Foundation", VInt 2); ("BsmtCond", VInt 3);
    ("BsmtFinType1", VInt 5); ("BsmtFinSF1", VFloat 400); ("BsmtFinType2", VInt 5);
    ("BsmtFinSF2", VFloat 0); ("BsmtUnfSF", VFloat 400);
    ("TotalBsmtSF", VFloat 800); ("Heating", VInt 1); ("Electrical", VInt 4);
    ("2ndFlrSF", VFloat 0); ("LowQualFinSF", VFloat 0); ("BsmtHalfBath", VInt 0);
    ("FullBath", VInt 2); ("HalfBath", VInt 0); ("BedroomAbvGr", VInt 3);
    ("KitchenAbvGr", VInt 1); ("TotRmsAbvGrd", VInt 7); ("Functional", VInt 6);
    ("GarageYrBlt", VInt 30); ("GarageArea", VFloat 500); ("GarageQual", VInt 3);
    ("GarageCond", VInt 3); ("WoodDeckSF", VFloat 0); ("OpenPorchSF", VFloat 0);
    ("EnclosedPorch", VFloat 0); ("3SsnPorch", VFloat 0);
    ("ScreenPorch", VFloat 0); ("PoolArea", VFloat 0); ("PoolQC", VInt 0);
    ("Fence", VInt 0); ("MiscFeature", VInt 0); ("MiscVal", VFloat 0);
    ("MoSold", VInt 6); ("YrSold", VInt 2010); ("SaleType", VInt 8);
    ("LotFrontagenan", VInt 0); ("MasVnrAreanan", VInt 0); ("GarageYrBltnan", VInt 0) ].

(** The dictionary [default_values]: [{**user_inputs, 'LotFrontage': 70.0, ...}]. *)
Definition default_values (user_inputs : dict value) : dict value :=
  update user_inputs hardcoded_defaults.

(** [create_full_feature_vector]: one [default_values.get(feature, 0.0)] per
    name of [self.scaler_features]; iterating [None] raises. *)
Definition create_full_feature_vector
    (self : HousePricePredictor) (user_inputs : dict value) : outcome (list value) :=
  match scaler_features self with
  | Some features =>
      Returned (map (fun feature => get_default (default_values user_inputs) feature (VFloat 0))
                    features)
  | None => Raised (TypeError "'NoneType' object is not iterable")
  end.

(* ================================================================== *)
(** ** Categorical encoding (the first loop of [predict_price]) *)

Definition mapping_MSZoning : dict Z :=
  [("C", 0); ("RM", 1); ("RH", 2); ("RL", 3); ("FV", 4)]%Z.
Definition mapping_Neighborhood : dict Z :=
  [ ("MeadowV", 0); ("IDOTRR", 1); ("BrDale", 2); ("OldTown", 3); ("Edwards", 4);
    ("BrkSide", 5); ("Sawyer", 6); ("Blueste", 7); ("SWISU", 8); ("NAmes", 9);
    ("NPkVill", 10); ("Mitchel", 11); ("SawyerW", 12); ("Gilbert", 13); ("NWAmes", 14);
    ("Blmngtn", 15); ("CollgCr", 16); ("ClearCr", 17); ("Crawfor", 18); ("Veenker", 19);
    ("Somerst", 20); ("Timber", 21); ("StoneBr", 22); ("NoRidge", 23); ("NridgHt", 24) ]%Z.
Definition mapping_RoofStyle : dict Z :=
  [("Gable", 1); ("Hip", 2); ("Gambrel", 3); ("Mansard", 4); ("Flat", 5); ("Shed", 6)]%Z.
Definition mapping_BsmtQual : dict Z :=
  [("NA", 0); ("Fa", 1); ("TA", 2); ("Gd", 3); ("Ex", 4)]%Z.
Definition mapping_BsmtExposure : dict Z :=
  [("NA", 0); ("No", 1); ("Mn", 2); ("Av", 3); ("Gd", 4)]%Z.
Definition mapping_HeatingQC : dict Z :=
  [("Po", 1); ("Fa", 2); ("TA", 3); ("Gd", 4); ("Ex", 5)]%Z.
Definition mapping_CentralAir : dict Z := [("N", 0); ("Y", 1)]%Z.
Definition mapping_KitchenQual : dict Z :=
  [("Fa", 1); ("TA", 2); ("Gd", 3); ("Ex", 4)]%Z.
Definition mapping_FireplaceQu : dict Z :=
  [("NA", 0); ("Po", 1); ("Fa", 2); ("TA", 3); ("Gd", 4); ("Ex", 5)]%Z.
Definition mapping_GarageType : dict Z :=
  [("NA", 0); ("Detchd", 1); ("CarPort", 2); ("BuiltIn", 3); ("Attchd", 4)]%Z.
Definition mapping_GarageFinish : dict Z :=
  [("NA", 0); ("Unf", 1); ("RFn", 2); ("Fin", 3)]%Z.
Definition mapping_PavedDrive : dict Z := [("N", 0); ("P", 1); ("Y", 2)]%Z.
Definition mapping_SaleCondition : dict Z :=
  [ ("AdjLand", 0); ("Abnorml", 1); ("Alloca", 2); ("Family", 3); ("Normal", 4);
    ("Partial", 5) ]%Z.

(** [mapping.get(value, default)]: the keys are strings, so a number is never
    found. *)
Definition mapping_get (mapping : dict Z) (v : value) (default : Z) : Z :=
  match v with
  | VStr code => get_default mapping code default
  | VInt _ | VFloat _ => default
  end.

(** The attributes with an [if]/[elif] branch of their own, and for each its
    table and the default written in its [mapping.get]. *)
Definition categorical_tables : list (string * (dict Z * Z)) :=
  [ ("MSZoning", (mapping_MSZoning, 3)); ("Neighborhood", (mapping_Neighborhood, 12));
    ("RoofStyle", (mapping_RoofStyle, 1)); ("BsmtQual", (mapping_BsmtQual, 3));
    ("BsmtExposure", (mapping_BsmtExposure, 2)); ("HeatingQC", (mapping_HeatingQC, 4));
    ("CentralAir", (mapping_CentralAir, 1)); ("KitchenQual", (mapping_KitchenQual, 3));
    ("FireplaceQu", (mapping_FireplaceQu, 3)); ("GarageType", (mapping_GarageType, 1));
    ("GarageFinish", (mapping_GarageFinish, 2)); ("PavedDrive", (mapping_PavedDrive, 2));
    ("SaleCondition", (mapping_SaleCondition, 4)) ]%Z.

Definition is_categorical (feature : string) : bool :=
  contains (keys categorical_tables) feature.

Section Predictor.

(** Python's parsing of a string by [float(s)]: [None] where it raises
    [ValueError]. *)
Variable float_str : string -> option R.

(** [float(value)] *)
Definition float (v : value) : outcome R :=
  match v with
  | VInt z => Returned (IZR z)
  | VFloat r => Returned r
  | VStr s =>
      match float_str s with
      | Some r => Returned r
      | None => Raised (ValueError ("could not convert string to float: " ++ repr s))
      end
  end.

(** The body of the loop for one [(feature, value)] whose feature is in
    [self.model_features]: the value stored in [encoded_features]. *)
Definition encode_value (feature : string) (v : value) : outcome value :=
  if String.eqb feature "MSZoning" then Returned (VInt (mapping_get mapping_MSZoning v 3))
  else if String.eqb feature "Neighborhood" then Returned (VInt (mapping_get mapping_Neighborhood v 12))
  else if String.eqb feature "RoofStyle" then Returned (VInt (mapping_get mapping_RoofStyle v 1))
  else if String.eqb feature "BsmtQual" then Returned (VInt (mapping_get mapping_BsmtQual v 3))
  else if String.eqb feature "BsmtExposure" then Returned (VInt (mapping_get mapping_BsmtExposure v 2))
  else if String.eqb feature "HeatingQC" then Returned (VInt (mapping_get mapping_HeatingQC v 4))
  else if String.eqb feature "CentralAir" then Returned (VInt (mapping_get mapping_CentralAir v 1))
  else if String.eqb feature "KitchenQual" then Returned (VInt (mapping_get mapping_KitchenQual v 3))
  else if String.eqb feature "FireplaceQu" then Returned (VInt (mapping_get mapping_FireplaceQu v 3))
  else if String.eqb feature "GarageType" then Returned (VInt (mapping_get mapping_GarageType v 1))
  else if String.eqb feature "GarageFinish" then Returned (VInt (mapping_get mapping_GarageFinish v 2))
  else if String.eqb feature "PavedDrive" then Returned (VInt (mapping_get mapping_PavedDrive v 2))
  else if String.eqb feature "SaleCondition" then Returned (VInt (mapping_get mapping_SaleCondition v 4))
  else (r <- float v ;; Returned (VFloat r)).

(** [feature in self.model_features] *)
Definition in_model_features (self : HousePricePredictor) (feature : string) : outcome bool :=
  match model_features self with
  | Some names => Returned (contains names feature)
  | None => Raised (TypeError "argument of type 'NoneType' is not iterable")
  end.

(** [for feature, value in features.items(): ...] continuing from the
    [encoded_features] built so far. *)
Fixpoint encode_items (self : HousePricePredictor) (items : list (string * value))
    (encoded_features : dict value) : outcome (dict value) :=
  match items with
  | [] => Returned encoded_features
  | (feature, v) :: items' =>
      known <- in_model_features self feature ;;
      if (known : bool) then
        e <- encode_value feature v ;;
        encode_items self items' (set encoded_features feature e)
      else encode_items self items' encoded_features
  end.

(** Lines 236-287: [encoded_features] after the loop. *)
Definition encode (self : HousePricePredictor) (features : dict value) : outcome (dict value) :=
  encode_items self features [].

(* ---------------------------------------------------------------- *)
(** *** The model input (lines 291-308 of [predict_price]) *)

(** The cells of a one-row frame or array as [float64], as pandas, numpy
    and scikit-learn convert them on the way into [transform] / [predict]. *)
Definition float64_row (cells : list value) : outcome (list R) := mapM float cells.

(** [self.scaler.transform(full_df)] *)
Definition scaler_transform (self : HousePricePredictor) (full_df : list value)
    : outcome (list R) :=
  match scaler self with
  | Some s => row <- float64_row full_df ;; transform s row
  | None => Raised (AttributeError "'NoneType' object has no attribute 'transform'")
  end.

(** [for f in self.model_features] *)
Definition iter_model_features (self : HousePricePredictor) : outcome (list string) :=
  match model_features self with
  | Some names => Returned names
  | None => Raised (TypeError "'NoneType' object is not iterable")
  end.

(** Method 1: the full vector, scaled, then the model's columns of it. *)
Definition scaled_model_input (self : HousePricePredictor) (scaler_names : list string)
    (encoded_features : dict value) : outcome (list R) :=
  full_vector <- create_full_feature_vector self encoded_features ;;
  scaled_full <- scaler_transform self full_vector ;;
  names <- iter_model_features self ;;
  model_indices <- mapM (index scaler_names) names ;;
  mapM (take_cell scaled_full) model_indices.

(** Method 2: [[encoded_features.get(f, 0) for f in self.model_features]]. *)
Definition raw_model_input (self : HousePricePredictor) (encoded_features : dict value)
    : outcome (list R) :=
  names <- iter_model_features self ;;
  float64_row (map (fun f => get_default encoded_features f (VInt 0)) names).

(** [if self.scaler_features: ... else: ...]: [None] and the empty list are
    both false. *)
Definition model_input_of (self : HousePricePredictor) (encoded_features : dict value)
    : outcome (list R) :=
  match scaler_features self with
  | Some (name :: names) => scaled_model_input self (name :: names) encoded_features
  | Some [] | None => raw_model_input self encoded_features
  end.

(* ---------------------------------------------------------------- *)
(** *** Prediction info *)

(** A value of the [info] dictionary.  [IMoney r] is the string
    [f"${r:,.2f}"]; [IDict] is a nested dictionary. *)
Inductive infoval : Type :=
| IVal (v : value)
| IMoney (r : R)
| IDict (d : dict value).

(** The two or three [category] entries added to [info]. *)
Definition category_entries (prediction : R) : list (string * infoval) :=
  if Rlt_dec prediction 150000 then
    [ ("category", IVal (VStr "Budget (Under $150K)"));
      ("category_color", IVal (VStr "#e67e22")) ]
  else if Rgt_dec prediction 400000 then
    [ ("category", IVal (VStr "Premium ($400K+)"));
      ("category_color", IVal (VStr "#9b59b6")) ]
  else
    [ ("category", IVal (VStr "Mid-range ($150K-$400K)"));
      ("category_color", IVal (VStr "#27ae60")) ].

(** [[np.exp(p) for p in [tree.predict(feature_array)[0] for tree in ...]]] *)
Definition tree_predictions (trees : list Estimator) (feature_array : list R)
    : outcome (list R) :=
  predictions <- mapM (fun tree => tree_predict tree feature_array) trees ;;
  Returned (map exp predictions).

(** The entries added under [if hasattr(self.model, 'estimators_')]; the
    bare [except: pass] leaves [info] as it was. *)
Definition interval_entries (self : HousePricePredictor) (feature_array : list R)
    (prediction : R) : list (string * infoval) :=
  match model self with
  | Some m =>
      match estimators_ m with
      | Some trees =>
          match tree_predictions trees feature_array with
          | Returned predictions =>
              let std_dev := np_std predictions in
              [ ("std_deviation", IVal (VFloat std_dev));
                ("confidence_interval",
                 IDict [ ("lower", max0 (prediction - 1.96 * std_dev));
                         ("upper", VFloat (prediction + 1.96 * std_dev)) ]) ]
          | Raised _ => []
          end
      | None => []
      end
  | None => []
  end.

(** [_get_prediction_info] *)
Definition _get_prediction_info (self : HousePricePredictor) (feature_array : list R)
    (prediction : R) (user_inputs : dict value) : outcome (dict infoval) :=
  match model_features self with
  | None => Raised (TypeError "object of type 'NoneType' has no len()")
  | Some names =>
      let info :=
        [ ("prediction", IVal (VFloat prediction));
          ("formatted_prediction", IMoney prediction);
          ("confidence", IVal (VStr "Medium"));
          ("input_features_count", IVal (VInt (len user_inputs)));
          ("missing_features_count",
           IVal (VInt (Z.of_nat (length names) - len user_inputs))) ] in
      let info := update info (category_entries prediction) in
      let info := update info (interval_entries self feature_array prediction) in
      Returned info
  end.

(* ---------------------------------------------------------------- *)
(** *** [predict_price] *)

(** The body of the [try] block. *)
Definition predict_body (self : HousePricePredictor) (m : Model) (features : dict value)
    : outcome (R * dict infoval) :=
  encoded_features <- encode self features ;;
  model_input <- model_input_of self encoded_features ;;
  prediction_log <- predict m model_input ;;
  let prediction := exp prediction_log in
  prediction_info <- _get_prediction_info self model_input prediction encoded_features ;;
  Returned (prediction, prediction_info).

(** [predict_price]: the guard on [self.model] stands before the [try];
    [except Exception as e] returns [0.0, {'error': str(e)}]. *)
Definition predict_price (self : HousePricePredictor) (features : dict value)
    : outcome (R * dict infoval) :=
  match model self with
  | None => Raised (ValueError "Model not loaded")
  | Some m =>
      match predict_body self m features with
      | Returned result => Returned result
      | Raised e => Returned (0, [("error", IVal (VStr (exn_msg e)))])
      end
  end.

End Predictor.

(* ================================================================== *)
(** ** The confidence label of the display component *)

(** What [display_confidence_interval] renders in its three columns. *)
Record ConfidenceDisplay : Type := {
  confidence_text : string;
  lower_bound : Z;
  upper_bound : Z
}.

(** [int(x)] on a float: truncation towards zero. *)
Definition int_of_float (x : R) : Z :=
  if Rle_dec 0 x then Int_part x else (- Int_part (- x))%Z.

(** [feature_count >= n] for an integer literal [n]. *)
Definition count_ge (feature_count : infoval) (n : Z) : outcome bool :=
  match feature_count with
  | IVal (VInt z) => Returned (n <=? z)%Z
  | IVal (VFloat r) => Returned (if Rle_dec (IZR n) r then true else false)
  | IVal (VStr _) | IMoney _ =>
      Raised (TypeError "'>=' not supported between instances of 'str' and 'int'")
  | IDict _ =>
      Raised (TypeError "'>=' not supported between instances of 'dict' and 'int'")
  end.

(** [display_confidence_interval]: the label and the two bounds it shows. *)
Definition display_confidence_interval (prediction : R) (prediction_info : dict infoval)
    : outcome ConfidenceDisplay :=
  let base_error_pct := 0.15 in
  let feature_count := get_default prediction_info "input_features_count" (IVal (VInt 8)) in
  ge15 <- count_ge feature_count 15 ;;
  choice <-
    (if (ge15 : bool) then Returned (0.8, "High")
     else ge10 <- count_ge feature_count 10 ;;
          if (ge10 : bool) then Returned (1, "Medium") else Returned (1.2, "Medium")) ;;
  let '(confidence_factor, text) := choice in
  let final_error_pct := base_error_pct * confidence_factor in
  let error_amount := prediction * final_error_pct in
  Returned {| confidence_text := text;
              lower_bound := int_of_float (prediction - error_amount);
              upper_bound := int_of_float (prediction + error_amount) |}.

(* ================================================================== *)
(** ** Concrete artifacts and predictors for the examples *)

(** [float(s)] on the strings made of decimal digits only, where it is the
    integer they spell; [None] elsewhere (as for ["abc"], where Python raises). *)
Definition float_digits (s : string) : option R :=
  option_map (fun u => IZR (Z.of_uint u)) (NilZero.uint_of_string s).

(** A model without ensemble that predicts the log-price [y] on every input. *)
Definition constant_model (y : R) : Model :=
  {| predict := fun _ => Returned y; estimators_ := None; feature_names_in_ := None |}.

Definition constant_tree (y : R) : Estimator :=
  {| tree_predict := fun _ => Returned y |}.

(** An ensemble of two trees that predicts the log-price [0]. *)
Definition two_tree_model : Model :=
  {| predict := fun _ => Returned 0;
     estimators_ := Some [constant_tree 0; constant_tree 0];
     feature_names_in_ := None |}.

(** A scaler that leaves every cell as it is, with the given feature order. *)
Definition identity_scaler (names : list string) : Scaler :=
  {| transform := fun row => Returned row; scaler_feature_names_in_ := Some names |}.

(** A predictor whose scaler was fit on two columns. *)
Definition two_column_predictor : HousePricePredictor :=
  init {| house_price_model_joblib := Some (Returned (constant_model 12));
          scaler_joblib := Some (Returned (identity_scaler ["LotArea"; "GrLivArea"]));
          data_selected_features_csv := Some ["GrLivArea"; "LotArea"];
          src_data_selected_features_csv := None |}.

(** No artifact on disk at all. *)
Definition no_artifacts : Artifacts :=
  {| house_price_model_joblib := None; scaler_joblib := None;
     data_selected_features_csv := None; src_data_selected_features_csv := None |}.

(** Only the model file is there: the hardcoded schema, no normalization. *)
Definition model_only (m : Model) : Artifacts :=
  {| house_price_model_joblib := Some (Returned m); scaler_joblib := None;
     data_selected_features_csv := None; src_data_selected_features_csv := None |}.

(** The predictor [self] with another object in [self.scaler]. *)
Definition with_scaler (self : HousePricePredictor) (s : option Scaler) : HousePricePredictor :=
  {| model := model self; scaler := s;
     model_features := model_features self; scaler_features := scaler_features self |}.

(** Fifteen attributes of the hardcoded schema, as the form supplies them. *)
Definition fifteen_features : dict value :=
  [ ("MSSubClass", VInt 60); ("MSZoning", VStr "RL"); ("Neighborhood", VStr "CollgCr");
    ("OverallQual", VInt 7); ("YearRemodAdd", VInt 2003); ("RoofStyle", VStr "Gable");
    ("BsmtQual", VStr "Gd"); ("BsmtExposure", VStr "No"); ("HeatingQC", VStr "Ex");
    ("CentralAir", VStr "Y"); ("1stFlrSF", VInt 856); ("GrLivArea", VInt 1710);
    ("BsmtFullBath", VInt 1); ("KitchenQual", VStr "Gd"); ("Fireplaces", VInt 0) ].

(** An ensemble whose [estimators_] do not answer [predict] (as the rows of
    a boosting model's estimator array), while the model itself predicts. *)
Definition unreadable_tree : Estimator :=
  {| tree_predict := fun _ =>
       Raised (AttributeError "'numpy.ndarray' object has no attribute 'predict'") |}.

Definition unreadable_ensemble_model : Model :=
  {| predict := fun _ => Returned 0;
     estimators_ := Some [unreadable_tree];
     feature_names_in_ := None |}.

(* ================================================================== *)
(** ** The other operations of the predictor *)

(** [type(v).__name__] *)
Definition type_name (v : value) : string :=
  match v with
  | VInt _ => "int"
  | VFloat _ => "float"
  | VStr _ => "str"
  end.

Definition not_supported (op : string) (a b : value) : exn :=
  TypeError ("'" ++ op ++ "' not supported between instances of "
             ++ repr (type_name a) ++ " and " ++ repr (type_name b)).

(** [a < b]: numbers compare by value, strings by code points, a number and a
    string do not compare. *)
Definition py_lt (a b : value) : outcome bool :=
  match a, b with
  | VInt x, VInt y => Returned (x <? y)%Z
  | VInt x, VFloat y => Returned (if Rlt_dec (IZR x) y then true else false)
  | VFloat x, VInt y => Returned (if Rlt_dec x (IZR y) then true else false)
  | VFloat x, VFloat y => Returned (if Rlt_dec x y then true else false)
  | VStr x, VStr y => Returned (String.ltb x y)
  | VStr _, VInt _ | VStr _, VFloat _ | VInt _, VStr _ | VFloat _, VStr _ =>
      Raised (not_supported "<" a b)
  end.

(** [a > b] *)
Definition py_gt (a b : value) : outcome bool :=
  match a, b with
  | VInt x, VInt y => Returned (y <? x)%Z
  | VInt x, VFloat y => Returned (if Rlt_dec y (IZR x) then true else false)
  | VFloat x, VInt y => Returned (if Rlt_dec (IZR y) x then true else false)
  | VFloat x, VFloat y => Returned (if Rlt_dec y x then true else false)
  | VStr x, VStr y => Returned (String.ltb y x)
  | VStr _, VInt _ | VStr _, VFloat _ | VInt _, VStr _ | VFloat _, VStr _ =>
      Raised (not_supported ">" a b)
  end.

(** The list [numeric_features] of [validate_input]. *)
Definition numeric_features : list string :=
  ["LotArea"; "GrLivArea"; "YearBuilt"; "OverallQual"; "OverallCond"].

(** [not isinstance(value, (int, float)) or value < 0] *)
Definition not_a_positive_number (v : value) : bool :=
  match v with
  | VInt z => (z <? 0)%Z
  | VFloat r => if Rlt_dec r 0 then true else false
  | VStr _ => true
  end.

(** The first loop of [validate_input]: the messages appended to [errors]. *)
Definition numeric_errors (features : dict value) : list string :=
  flat_map
    (fun feature =>
       match get features feature with
       | Some v =>
           if not_a_positive_number v then [feature ++ " must be a positive number"] else []
       | None => []
       end)
    numeric_features.

(** [validate_input] ([self] is not read). *)
Definition validate_input (features : dict value) : outcome (bool * list string) :=
  let errors := numeric_errors features in
  errors <-
    match get features "YearBuilt", get features "YearRemodAdd" with
    | Some built, Some remod =>
        before <- py_lt remod built ;;
        Returned (if (before : bool)
                  then (errors ++ ["Renovation year cannot be before construction year"])%list
                  else errors)
    | _, _ => Returned errors
    end ;;
  errors <-
    match get features "GrLivArea" with
    | Some area =>
        large <- py_gt area (VInt 10000) ;;
        Returned (if (large : bool)
                  then (errors ++ ["Living area seems unusually large (>10,000 sq ft)"])%list
                  else errors)
    | None => Returned errors
    end ;;
  Returned (Nat.eqb (length errors) 0, errors).

(** The entries of [get_model_info] that depend on the predictor (the
    [metadata] entry is the constant of [_load_metadata]). *)
Record ModelInfo : Type := {
  status : string;
  feature_count : Z;
  info_model_features : option (list string);
  scaler_features_count : Z
}.

(** [len(l) if l else 0] *)
Definition len_or_zero (l : option (list string)) : Z :=
  match l with
  | Some names => Z.of_nat (length names)
  | None => 0%Z
  end.

(** [get_model_info] *)
Definition get_model_info (self : HousePricePredictor) : ModelInfo :=
  {| status := match model self with Some _ => "Loaded" | None => "Not Loaded" end;
     feature_count := len_or_zero (model_features self);
     info_model_features := model_features self;
     scaler_features_count := len_or_zero (scaler_features self) |}.

(** One step of [sorted(..., key=lambda x: x[1], reverse=True)]: the new
    pair goes behind the pairs of greater score and before those of equal or
    smaller score (the sort is stable). *)
Fixpoint insert_by_score (x : string * R) (l : list (string * R)) : list (string * R) :=
  match l with
  | [] => [x]
  | y :: l' => if Rlt_dec (snd x) (snd y) then y :: insert_by_score x l' else x :: y :: l'
  end.

(** [sorted(items, key=lambda x: x[1], reverse=True)] *)
Definition sorted_by_score (items : list (string * R)) : list (string * R) :=
  fold_right insert_by_score [] items.

(** [l[:n]]: a negative [n] counts from the end. *)
Definition slice_to {A : Type} (l : list A) (n : Z) : list A :=
  if (0 <=? n)%Z then firstn (Z.to_nat n) l
  else firstn (length l - Z.to_nat (- n)) l.

(** [get_feature_importance]; [feature_importances_] is that attribute of
    [self.model], [None] when the model has none. *)
Definition get_feature_importance (self : HousePricePredictor)
    (feature_importances_ : option (list R)) (top_n : Z) : option (dict R) :=
  match model self, feature_importances_ with
  | Some _, Some importances =>
      match model_features self with
      | Some (name :: names) =>
          let feature_importance := update [] (combine (name :: names) importances) in
          let sorted_features := sorted_by_score feature_importance in
          Some (update [] (slice_to sorted_features top_n))
      | Some [] | None => None
      end
  | _, _ => None
  end.

(* ================================================================== *)
(** ** The other computations of the display component *)

(** [categorize_price_range] of [prediction_display.py] *)
Definition categorize_price_range (price : R) : string :=
  if Rlt_dec price 100000 then "Budget ($0-$100K)"
  else if Rlt_dec price 200000 then "Affordable ($100K-$200K)"
  else if Rlt_dec price 300000 then "Mid-Range ($200K-$300K)"
  else if Rlt_dec price 500000 then "Premium ($300K-$500K)"
  else if Rlt_dec price 750000 then "Luxury ($500K-$750K)"
  else "Ultra-Luxury ($750K+)".

(** [get_price_tier] *)
Definition get_price_tier (price : R) : string :=
  if Rlt_dec price 150000 then "Entry Level"
  else if Rlt_dec price 250000 then "Standard"
  else if Rlt_dec price 400000 then "Premium"
  else "Luxury".

(** The position of a label in a scale of labels (the length of the scale for
    a label that is not on it). *)
Fixpoint rank (scale : list string) (label : string) : nat :=
  match scale with
  | [] => 0
  | l :: scale' => if String.eqb label l then 0 else S (rank scale' label)
  end.

Definition price_range_scale : list string :=
  [ "Budget ($0-$100K)"; "Affordable ($100K-$200K)"; "Mid-Range ($200K-$300K)";
    "Premium ($300K-$500K)"; "Luxury ($500K-$750K)"; "Ultra-Luxury ($750K+)" ].

Definition price_tier_scale : list string :=
  ["Entry Level"; "Standard"; "Premium"; "Luxury"].

(** What [display_prediction_result] puts on the card and in its four
    metrics, before formatting. *)
Record PredictionCard : Type := {
  card_confidence : infoval;
  card_price_per_sqft : R;
  card_range : R * R;
  card_range_help : string;
  card_features_used : infoval;
  card_price_category : string
}.

(** [prediction / d] for the [living_area] entry [d]. *)
Definition divide_by (prediction : R) (d : infoval) : outcome R :=
  match d with
  | IVal (VInt z) =>
      if (z =? 0)%Z then Raised (Exn "ZeroDivisionError" "float division by zero")
      else Returned (prediction / IZR z)
  | IVal (VFloat r) =>
      if Req_dec_T r 0 then Raised (Exn "ZeroDivisionError" "float division by zero")
      else Returned (prediction / r)
  | IVal (VStr _) | IMoney _ =>
      Raised (TypeError "unsupported operand type(s) for /: 'float' and 'str'")
  | IDict _ =>
      Raised (TypeError "unsupported operand type(s) for /: 'float' and 'dict'")
  end.

(** [f"{ci[key]:,.0f}"]: the number that is formatted. *)
Definition interval_bound (ci : infoval) (key : string) : outcome R :=
  match ci with
  | IDict d =>
      match get d key with
      | Some (VInt z) => Returned (IZR z)
      | Some (VFloat r) => Returned r
      | Some (VStr _) =>
          Raised (ValueError "Unknown format code 'f' for object of type 'str'")
      | None => Raised (Exn "KeyError" (repr key))
      end
  | IVal (VStr _) | IMoney _ =>
      Raised (TypeError "string indices must be integers, not 'str'")
  | IVal (VInt _) => Raised (TypeError "'int' object is not subscriptable")
  | IVal (VFloat _) => Raised (TypeError "'float' object is not subscriptable")
  end.

(** [display_prediction_result] *)
Definition display_prediction_result (prediction : R) (prediction_info : dict infoval)
    : outcome PredictionCard :=
  let confidence := get_default prediction_info "confidence" (IVal (VStr "Medium")) in
  per_sqft <-
    divide_by prediction (get_default prediction_info "living_area" (IVal (VInt 1710))) ;;
  range <-
    match get prediction_info "confidence_interval" with
    | Some ci =>
        lower <- interval_bound ci "lower" ;;
        upper <- interval_bound ci "upper" ;;
        Returned ((lower, upper), "95% confidence interval")
    | None =>
        let error_margin := prediction * 0.15 in
        Returned ((prediction - error_margin, prediction + error_margin),
                  "Estimated price range")
    end ;;
  Returned {| card_confidence := confidence;
              card_price_per_sqft := per_sqft;
              card_range := fst range;
              card_range_help := snd range;
              card_features_used :=
                get_default prediction_info "input_features_count" (IVal (VStr "N/A"));
              card_price_category := categorize_price_range prediction |}.

(* ================================================================== *)
(** ** Dictionaries *)

Lemma get_set {V : Type} (d : dict V) (k k' : string) (v : V) :
  get (set d k v) k' = if String.eqb k' k then Some v else get d k'.
Proof.
  induction d as [|[k0 v0] d IH]; simpl.
  - reflexivity.
  - destruct (String.eqb k k0) eqn:Ek; simpl.
    + apply String.eqb_eq in Ek; subst k0.
      destruct (String.eqb k' k); reflexivity.
    + rewrite IH.
      destruct (String.eqb k' k0) eqn:E0; [|reflexivity].
      apply String.eqb_eq in E0; subst k0.
      destruct (String.eqb k' k) eqn:E1; [|reflexivity].
      apply String.eqb_eq in E1; subst k'.
      rewrite String.eqb_refl in Ek; discriminate.
Qed.

Lemma get_app {V : Type} (d1 d2 : dict V) (k : string) :
  get (d1 ++ d2)%list k = match get d1 k with Some v => Some v | None => get d2 k end.
Proof.
  induction d1 as [|[k0 v0] d1 IH]; simpl; [reflexivity|].
  destruct (String.eqb k k0); [reflexivity | exact IH].
Qed.

(** Reading a dictionary literal that extends [d]: the last entry written
    under the key, else what [d] had. *)
Lemma get_update {V : Type} (entries : list (string * V)) :
  forall (d : dict V) (k : string),
    get (update d entries) k =
    match get (rev entries) k with Some v => Some v | None => get d k end.
Proof.
  unfold update.
  induction entries as [|[k0 v0] entries IH]; intros d k; simpl.
  - reflexivity.
  - rewrite IH, get_app, get_set; simpl.
    destruct (get (rev entries) k); [reflexivity|].
    destruct (String.eqb k k0); reflexivity.
Qed.

Lemma get_In {V : Type} (d : dict V) (k : string) (v : V) :
  get d k = Some v -> In (k, v) d.
Proof.
  induction d as [|[k0 v0] d IH]; simpl; [discriminate|].
  destruct (String.eqb k k0) eqn:E.
  - apply String.eqb_eq in E; subst k0. intros [= ->]. now left.
  - intros H. right. auto.
Qed.

Lemma get_None_keys {V : Type} (d : dict V) (k : string) :
  get d k = None <-> ~ In k (keys d).
Proof.
  induction d as [|[k0 v0] d IH]; simpl.
  - tauto.
  - destruct (String.eqb k k0) eqn:E.
    + apply String.eqb_eq in E; subst k0. split; [discriminate | tauto].
    + apply String.eqb_neq in E. rewrite IH. split.
      * intros H [H1 | H1]; [congruence | tauto].
      * tauto.
Qed.

Lemma In_get_NoDup {V : Type} (d : dict V) (k : string) (v : V) :
  NoDup (keys d) -> In (k, v) d -> get d k = Some v.
Proof.
  induction d as [|[k0 v0] d IH]; simpl; [tauto|].
  intros Hnd [H | H].
  - injection H as -> ->. now rewrite String.eqb_refl.
  - inversion Hnd as [|? ? Hnotin Hnd']; subst.
    destruct (String.eqb k k0) eqn:E.
    + apply String.eqb_eq in E; subst k0.
      exfalso. apply Hnotin. change k with (fst (k, v)). now apply in_map.
    + auto.
Qed.

(** With distinct keys the order of a literal's entries does not matter. *)
Lemma get_rev_NoDup {V : Type} (d : dict V) (k : string) :
  NoDup (keys d) -> get (rev d) k = get d k.
Proof.
  intros Hnd.
  assert (Hrev : NoDup (keys (rev d))).
  { unfold keys. rewrite map_rev. apply NoDup_rev. exact Hnd. }
  destruct (get d k) as [v|] eqn:E.
  - apply In_get_NoDup; [exact Hrev|]. apply in_rev. rewrite rev_involutive.
    now apply get_In.
  - apply get_None_keys. apply get_None_keys in E.
    unfold keys in *. rewrite map_rev, <- in_rev. exact E.
Qed.

Lemma contains_In (l : list string) (x : string) :
  contains l x = true <-> In x l.
Proof.
  induction l as [|y l IH]; simpl.
  - split; [discriminate | tauto].
  - destruct (String.eqb x y) eqn:E.
    + apply String.eqb_eq in E. subst. tauto.
    + apply String.eqb_neq in E. rewrite IH. split; [tauto|].
      intros [H | H]; [congruence | exact H].
Qed.

Lemma length_set_new {V : Type} (d : dict V) (k : string) (v : V) :
  get d k = None -> length (set d k v) = S (length d).
Proof.
  induction d as [|[k0 v0] d IH]; simpl; [reflexivity|].
  destruct (String.eqb k k0); [discriminate|].
  intros H. simpl. now rewrite IH.
Qed.

Lemma hardcoded_defaults_NoDup : NoDup (keys hardcoded_defaults).
Proof.
  assert (H : nodup string_dec (keys hardcoded_defaults) = keys hardcoded_defaults)
    by (vm_compute; reflexivity).
  rewrite <- H. apply NoDup_nodup.
Qed.

(* ================================================================== *)
(** ** Full-vector assembly *)

Lemma get_default_values (user_inputs : dict value) (name : string) :
  get (default_values user_inputs) name =
  match get hardcoded_defaults name with
  | Some d => Some d
  | None => get user_inputs name
  end.
Proof.
  unfold default_values.
  rewrite get_update, get_rev_NoDup by apply hardcoded_defaults_NoDup.
  reflexivity.
Qed.

Lemma hardcoded_defaults_numbers :
  Forall (fun kv => is_number (snd kv) = true) hardcoded_defaults.
Proof. repeat constructor. Qed.

Lemma nth_error_map_some {A B : Type} (f : A -> B) (l : list A) (i : nat) (a : A) :
  nth_error l i = Some a -> nth_error (map f l) i = Some (f a).
Proof. intros H. rewrite nth_error_map, H. reflexivity. Qed.

(** What the literal [{**user_inputs, 'LotFrontage': 70.0, ...}] does: the
    hardcoded entries are written after the caller's, so in the slot of a name
    with a hardcoded entry the vector carries that entry whatever the caller's
    map holds, and the caller's value is carried only in the slot of a name
    without one. *)
Theorem hardcoded_default_precedence
    (self : HousePricePredictor) (user_inputs : dict value)
    (features : list string) (i : nat) (name : string) :
  scaler_features self = Some features ->
  nth_error features i = Some name ->
  exists full_vector,
    create_full_feature_vector self user_inputs = Returned full_vector /\
    (forall d, get hardcoded_defaults name = Some d ->
               nth_error full_vector i = Some d) /\
    (get hardcoded_defaults name = None ->
     forall v, get user_inputs name = Some v -> nth_error full_vector i = Some v).
Proof.
  intros Hsf Hi. unfold create_full_feature_vector. rewrite Hsf.
  eexists; split; [reflexivity|].
  split.
  - intros d Hd. erewrite nth_error_map_some by exact Hi.
    unfold get_default. now rewrite get_default_values, Hd.
  - intros Hd v Hv. erewrite nth_error_map_some by exact Hi.
    unfold get_default. now rewrite get_default_values, Hd, Hv.
Qed.

Lemma hardcoded_default_precedence_witness :
  exists full_vector,
    create_full_feature_vector two_column_predictor
      [("LotArea", VFloat 9000); ("GrLivArea", VFloat 1710)] = Returned full_vector /\
    (forall d, get hardcoded_defaults "LotArea" = Some d ->
               nth_error full_vector 0 = Some d) /\
    (get hardcoded_defaults "LotArea" = None ->
     forall v, get [("LotArea", VFloat 9000); ("GrLivArea", VFloat 1710)] "LotArea" = Some v ->
               nth_error full_vector 0 = Some v).
Proof.
  apply (hardcoded_default_precedence two_column_predictor _ ["LotArea"; "GrLivArea"] 0 "LotArea");
    reflexivity.
Defined.

(** The caller supplies [LotArea = 9000], the slot of [LotArea] carries the
    hardcoded [8000.0]. *)
Lemma override_precedence_counterexample :
  get hardcoded_defaults "LotArea" = Some (VFloat 8000) /\
  get [("LotArea", VFloat 9000); ("GrLivArea", VFloat 1710)] "LotArea" = Some (VFloat 9000) /\
  scaler_features two_column_predictor = Some ["LotArea"; "GrLivArea"] /\
  create_full_feature_vector two_column_predictor
    [("LotArea", VFloat 9000); ("GrLivArea", VFloat 1710)]
  = Returned [VFloat 8000; VFloat 1710] /\
  model_input_of float_digits two_column_predictor
    [("LotArea", VFloat 9000); ("GrLivArea", VFloat 1710)]
  = Returned [1710; 8000] /\
  VFloat 8000 <> VFloat 9000.
Proof.
  repeat (split; [reflexivity|]).
  intros H. injection H as H. lra.
Qed.

(** C1.  Override precedence is what the code misses.  [LotArea] is a model
    feature with a "default value" in [create_full_feature_vector]; the caller
    supplies 9000.  The assembled vector carries the hardcoded 8000.0 in the
    slot of [LotArea], so the scaled path feeds the model 8000, while Method 2
    of the same [predict_price], on the same encoded map, feeds it the
    caller's 9000. *)
Lemma override_precedence_missed :
  model_features two_column_predictor = Some ["GrLivArea"; "LotArea"] /\
  scaler_features two_column_predictor = Some ["LotArea"; "GrLivArea"] /\
  encode float_digits two_column_predictor
    [("LotArea", VInt 9000); ("GrLivArea", VInt 1710)]
  = Returned [("LotArea", VFloat 9000); ("GrLivArea", VFloat 1710)] /\
  get hardcoded_defaults "LotArea" = Some (VFloat 8000) /\
  create_full_feature_vector two_column_predictor
    [("LotArea", VFloat 9000); ("GrLivArea", VFloat 1710)]
  = Returned [VFloat 8000; VFloat 1710] /\
  VFloat 8000 <> VFloat 9000 /\
  model_input_of float_digits two_column_predictor
    [("LotArea", VFloat 9000); ("GrLivArea", VFloat 1710)]
  = Returned [1710; 8000] /\
  raw_model_input float_digits two_column_predictor
    [("LotArea", VFloat 9000); ("GrLivArea", VFloat 1710)]
  = Returned [1710; 9000].
Proof.
  repeat (split; [reflexivity|]).
  split; [intros H; injection H as H; lra|].
  split; reflexivity.
Qed.

Lemma default_values_numbers (user_inputs : dict value) (name : string) (v : value) :
  (forall k u, In (k, u) user_inputs -> is_number u = true) ->
  get (default_values user_inputs) name = Some v -> is_number v = true.
Proof.
  intros Hin. rewrite get_default_values.
  destruct (get hardcoded_defaults name) as [d|] eqn:E.
  - intros [= <-]. apply get_In in E.
    apply (proj1 (Forall_forall _ _) hardcoded_defaults_numbers (name, d) E).
  - intros H. apply get_In in H. eauto.
Qed.

(** C7.  Full-vector completeness: with the scaler's feature order recorded,
    every encoded map (every value a number; the empty map too) yields a vector
    with one slot per scaler feature, in the scaler's order, each slot holding a
    number: [default_values.get(feature, 0.0)]. *)
Theorem full_vector_complete
    (self : HousePricePredictor) (user_inputs : dict value) (features : list string) :
  scaler_features self = Some features ->
  (forall k u, In (k, u) user_inputs -> is_number u = true) ->
  exists full_vector,
    create_full_feature_vector self user_inputs = Returned full_vector /\
    length full_vector = length features /\
    Forall (fun v => is_number v = true) full_vector /\
    (forall i name, nth_error features i = Some name ->
       nth_error full_vector i =
       Some (get_default (default_values user_inputs) name (VFloat 0))).
Proof.
  intros Hsf Hnum. unfold create_full_feature_vector. rewrite Hsf.
  eexists; split; [reflexivity|].
  split; [apply length_map|].
  split.
  - apply Forall_map. apply Forall_forall. intros name _.
    unfold get_default.
    destruct (get (default_values user_inputs) name) as [v|] eqn:E.
    + eapply default_values_numbers; eassumption.
    + reflexivity.
  - intros i name Hi.
    exact (nth_error_map_some
             (fun feature => get_default (default_values user_inputs) feature (VFloat 0))
             _ _ _ Hi).
Qed.

Lemma full_vector_complete_witness :
  exists full_vector,
    create_full_feature_vector two_column_predictor [] = Returned full_vector /\
    length full_vector = length ["LotArea"; "GrLivArea"] /\
    Forall (fun v => is_number v = true) full_vector /\
    (forall i name, nth_error ["LotArea"; "GrLivArea"] i = Some name ->
       nth_error full_vector i =
       Some (get_default (default_values []) name (VFloat 0))).
Proof.
  apply (full_vector_complete two_column_predictor [] ["LotArea"; "GrLivArea"]).
  - reflexivity.
  - intros k u H. destruct H.
Defined.

(* ================================================================== *)
(** ** Encoding *)

Section EncodingFacts.

Variable float_str : string -> option R.

Lemma encode_value_categorical (feature : string) (table : dict Z) (default : Z) (v : value) :
  In (feature, (table, default)) categorical_tables ->
  encode_value float_str feature v = Returned (VInt (mapping_get table v default)).
Proof.
  unfold categorical_tables. simpl.
  intros H.
  repeat (destruct H as [H | H]; [injection H as <- <- <-; reflexivity|]).
  destruct H.
Qed.

Lemma encode_value_numeric (feature : string) (v : value) :
  is_categorical feature = false ->
  encode_value float_str feature v = (r <- float float_str v ;; Returned (VFloat r)).
Proof.
  unfold is_categorical, encode_value. simpl.
  repeat (match goal with
          | |- context [String.eqb feature ?s] =>
              destruct (String.eqb feature s); [discriminate|]
          end).
  reflexivity.
Qed.

Lemma is_categorical_table (feature : string) :
  is_categorical feature = true ->
  exists table default, In (feature, (table, default)) categorical_tables.
Proof.
  unfold is_categorical. rewrite contains_In. unfold keys. rewrite in_map_iff.
  intros [[k [table default]] [Hk Hin]]. simpl in Hk. subst k. eauto.
Qed.

Lemma encode_value_returns (feature : string) (v : value) :
  (is_categorical feature = false -> exists r, float float_str v = Returned r) ->
  exists e, encode_value float_str feature v = Returned e.
Proof.
  intros H. destruct (is_categorical feature) eqn:E.
  - destruct (is_categorical_table _ E) as (table & default & Hin).
    rewrite (encode_value_categorical _ _ _ v Hin). eauto.
  - destruct (H eq_refl) as [r Hr].
    rewrite (encode_value_numeric _ v E), Hr. simpl. eauto.
Qed.

Lemma float_raise_msg (v : value) (e : exn) :
  float float_str v = Raised e -> exn_msg e <> "".
Proof.
  destruct v as [z | r | s]; simpl; try discriminate.
  destruct (float_str s); [discriminate|].
  intros [= <-]. simpl. discriminate.
Qed.

Lemma encode_value_number (feature : string) (v e : value) :
  encode_value float_str feature v = Returned e -> is_number e = true.
Proof.
  destruct (is_categorical feature) eqn:E.
  - destruct (is_categorical_table _ E) as (table & default & Hin).
    rewrite (encode_value_categorical _ _ _ v Hin). now intros [= <-].
  - rewrite (encode_value_numeric _ v E).
    destruct (float float_str v); simpl; [now intros [= <-] | discriminate].
Qed.

Lemma encode_value_raise_msg (feature : string) (v : value) (e : exn) :
  encode_value float_str feature v = Raised e -> exn_msg e <> "".
Proof.
  destruct (is_categorical feature) eqn:E.
  - destruct (is_categorical_table _ E) as (table & default & Hin).
    rewrite (encode_value_categorical _ _ _ v Hin). discriminate.
  - rewrite (encode_value_numeric _ v E).
    destruct (float float_str v) eqn:Ef; simpl; [discriminate|].
    intros [= <-]. eapply float_raise_msg; eassumption.
Qed.

Variable self : HousePricePredictor.
Variable names : list string.
Hypothesis model_features_loaded : model_features self = Some names.

Lemma encode_items_cons (feature : string) (v : value) (items : list (string * value))
    (acc : dict value) :
  encode_items float_str self ((feature, v) :: items) acc =
  if contains names feature then
    e <- encode_value float_str feature v ;;
    encode_items float_str self items (set acc feature e)
  else encode_items float_str self items acc.
Proof.
  simpl. unfold in_model_features. rewrite model_features_loaded. reflexivity.
Qed.

(** The loop returns as soon as every numeric entry of the schema is
    float-coercible. *)
Lemma encode_items_returns (items : list (string * value)) :
  (forall k v, In (k, v) items -> contains names k = true -> is_categorical k = false ->
               exists r, float float_str v = Returned r) ->
  forall acc, exists encoded, encode_items float_str self items acc = Returned encoded.
Proof.
  induction items as [|[k v] items IH]; intros Hok acc.
  - simpl. eauto.
  - rewrite encode_items_cons.
    assert (Hrest : forall k' v', In (k', v') items -> contains names k' = true ->
                      is_categorical k' = false -> exists r, float float_str v' = Returned r)
      by (intros; eapply Hok; [right|..]; eassumption).
    destruct (contains names k) eqn:Ek; [|now apply IH].
    destruct (encode_value_returns k v) as [e He].
    { intros Hc. apply (Hok k v); [now left | exact Ek | exact Hc]. }
    rewrite He. simpl. now apply IH.
Qed.

(** What the loop leaves under each key. *)
Lemma encode_items_get (items : list (string * value)) :
  NoDup (keys items) ->
  forall acc encoded, encode_items float_str self items acc = Returned encoded ->
  forall k,
    match get items k with
    | Some v =>
        if contains names k
        then exists e, encode_value float_str k v = Returned e /\ get encoded k = Some e
        else get encoded k = get acc k
    | None => get encoded k = get acc k
    end.
Proof.
  induction items as [|[k0 v0] items IH]; intros Hnd acc encoded Henc k.
  - simpl in *. now injection Henc as <-.
  - inversion Hnd as [|? ? Hnotin Hnd']; subst.
    rewrite encode_items_cons in Henc.
    assert (Hk0 : get items k0 = None) by (now apply get_None_keys).
    simpl. destruct (String.eqb k k0) eqn:Ek.
    + apply String.eqb_eq in Ek; subst k.
      destruct (contains names k0) eqn:Ec.
      * destruct (encode_value float_str k0 v0) as [e|e] eqn:Ee; simpl in Henc;
          [|discriminate].
        exists e. split; [reflexivity|].
        specialize (IH Hnd' _ _ Henc k0). rewrite Hk0 in IH.
        rewrite IH, get_set, String.eqb_refl. reflexivity.
      * specialize (IH Hnd' _ _ Henc k0). now rewrite Hk0 in IH.
    + destruct (contains names k0) eqn:Ec.
      * destruct (encode_value float_str k0 v0) as [e|e] eqn:Ee; simpl in Henc;
          [|discriminate].
        specialize (IH Hnd' _ _ Henc k). rewrite get_set, Ek in IH. exact IH.
      * exact (IH Hnd' _ _ Henc k).
Qed.

(** Every value the loop stores is a number. *)
Lemma encode_items_numbers (items : list (string * value)) :
  forall acc encoded, encode_items float_str self items acc = Returned encoded ->
  (forall k v, get acc k = Some v -> is_number v = true) ->
  forall k v, get encoded k = Some v -> is_number v = true.
Proof.
  induction items as [|[k0 v0] items IH]; intros acc encoded Henc Hacc.
  - simpl in Henc. now injection Henc as <-.
  - rewrite encode_items_cons in Henc.
    destruct (contains names k0); [|now apply (IH _ _ Henc)].
    destruct (encode_value float_str k0 v0) as [e|e] eqn:Ee; simpl in Henc; [|discriminate].
    apply (IH _ _ Henc). intros k v. rewrite get_set.
    destruct (String.eqb k k0); [|now apply Hacc].
    intros [= <-]. eapply encode_value_number; eassumption.
Qed.

(** [len(encoded_features)]: the supplied attributes that are in the schema. *)
Lemma encode_items_length (items : list (string * value)) :
  NoDup (keys items) ->
  forall acc encoded, encode_items float_str self items acc = Returned encoded ->
  (forall k, In k (keys items) -> get acc k = None) ->
  length encoded =
  (length acc + length (filter (fun kv => contains names (fst kv)) items))%nat.
Proof.
  induction items as [|[k0 v0] items IH]; intros Hnd acc encoded Henc Hfresh.
  - simpl in *. injection Henc as <-. lia.
  - inversion Hnd as [|? ? Hnotin Hnd']; subst.
    rewrite encode_items_cons in Henc. simpl.
    destruct (contains names k0) eqn:Ec.
    + destruct (encode_value float_str k0 v0) as [e|e] eqn:Ee; simpl in Henc; [|discriminate].
      rewrite (IH Hnd' _ _ Henc).
      * rewrite length_set_new by (apply Hfresh; now left). simpl. lia.
      * intros k Hk. rewrite get_set.
        destruct (String.eqb k k0) eqn:Ek.
        -- apply String.eqb_eq in Ek; subst k. contradiction.
        -- apply Hfresh. now right.
    + apply (IH Hnd' _ _ Henc). intros k Hk. apply Hfresh. now right.
Qed.

(** One entry of the schema that [float] rejects makes the loop raise, with a
    message. *)
Lemma encode_items_raises (items : list (string * value)) (k : string) (s : string) :
  In (k, VStr s) items -> contains names k = true -> is_categorical k = false ->
  float_str s = None ->
  forall acc, exists e, encode_items float_str self items acc = Raised e /\ exn_msg e <> "".
Proof.
  intros Hin Hk Hc Hs.
  induction items as [|[k0 v0] items IH]; intros acc; [destruct Hin|].
  rewrite encode_items_cons.
  destruct Hin as [Hhead | Htail].
  - injection Hhead as -> ->. rewrite Hk, (encode_value_numeric _ _ Hc).
    simpl. rewrite Hs. simpl. eexists; split; [reflexivity|]. simpl. discriminate.
  - destruct (contains names k0); [|now apply IH].
    destruct (encode_value float_str k0 v0) as [e|e] eqn:Ee; simpl.
    + now apply IH.
    + exists e. split; [reflexivity|]. eapply encode_value_raise_msg; eassumption.
Qed.

End EncodingFacts.



(** C4, as the code has it.  The loop stores an entry only when its key is in
    [self.model_features]: a non-categorical entry of the schema is stored
    under its key as [float(value)], an entry outside the schema is dropped,
    and so is an absent attribute.  The loop returns whenever the numeric
    entries of the schema are float-coercible. *)
Theorem numeric_pass_through_in_schema
    (float_str : string -> option R) (self : HousePricePredictor)
    (names : list string) (features : dict value) :
  model_features self = Some names ->
  NoDup (keys features) ->
  (forall k v, In (k, v) features -> contains names k = true -> is_categorical k = false ->
               exists r, float float_str v = Returned r) ->
  exists encoded,
    encode float_str self features = Returned encoded /\
    (forall k v, get features k = Some v -> is_categorical k = false ->
       (contains names k = true ->
        exists r, float float_str v = Returned r /\ get encoded k = Some (VFloat r)) /\
       (contains names k = false -> get encoded k = None)) /\
    (forall k, get features k = None -> get encoded k = None).
Proof.
  intros Hnames Hnd Hok.
  destruct (encode_items_returns float_str self names Hnames features Hok [])
    as [encoded Henc].
  exists encoded. split; [exact Henc|].
  pose proof (encode_items_get float_str self names Hnames features Hnd [] encoded Henc)
    as Hget.
  split.
  - intros k v Hk Hc. specialize (Hget k). rewrite Hk in Hget. split; intros Hin.
    + rewrite Hin in Hget. destruct Hget as (e & He & Hge).
      rewrite (encode_value_numeric float_str k v Hc) in He.
      destruct (float float_str v) as [r|] eqn:Ef; simpl in He; [|discriminate].
      injection He as <-. eauto.
    + rewrite Hin in Hget. exact Hget.
  - intros k Hk. specialize (Hget k). rewrite Hk in Hget. exact Hget.
Qed.

Lemma numeric_pass_through_in_schema_witness :
  exists encoded,
    encode float_digits (init (model_only (constant_model 12)))
      [("GrLivArea", VInt 1710); ("LotArea", VInt 9000)] = Returned encoded /\
    (forall k v,
       get [("GrLivArea", VInt 1710); ("LotArea", VInt 9000)] k = Some v ->
       is_categorical k = false ->
       (contains fallback_model_features k = true ->
        exists r, float float_digits v = Returned r /\ get encoded k = Some (VFloat r)) /\
       (contains fallback_model_features k = false -> get encoded k = None)) /\
    (forall k, get [("GrLivArea", VInt 1710); ("LotArea", VInt 9000)] k = None ->
               get encoded k = None).
Proof.
  apply (numeric_pass_through_in_schema float_digits
           (init (model_only (constant_model 12))) fallback_model_features).
  - reflexivity.
  - repeat constructor; simpl; intuition discriminate.
  - intros k v [H | [H | []]]; injection H as <- <-; simpl; eauto.
Defined.

(** C4 as stated fails: [LotArea] is supplied and is not categorical, but it
    is not one of the model's features, and the encoded map omits it. *)
Lemma non_categorical_pass_through_counterexample :
  get [("GrLivArea", VInt 1710); ("LotArea", VInt 9000)] "LotArea" = Some (VInt 9000) /\
  is_categorical "LotArea" = false /\
  encode float_digits (init (model_only (constant_model 12)))
    [("GrLivArea", VInt 1710); ("LotArea", VInt 9000)]
  = Returned [("GrLivArea", VFloat 1710)] /\
  get [("GrLivArea", VFloat 1710)] "LotArea" = None.
Proof. repeat (split; [reflexivity|]). reflexivity. Qed.

(* ================================================================== *)
(** ** Prediction *)

Section PredictionFacts.

Variable float_str : string -> option R.

Lemma float_number (v : value) :
  is_number v = true -> float float_str v = Returned (real_of v).
Proof. destruct v; simpl; [reflexivity | reflexivity | discriminate]. Qed.

Lemma float64_row_numbers (cells : list value) :
  Forall (fun v => is_number v = true) cells ->
  float64_row float_str cells = Returned (map real_of cells).
Proof.
  unfold float64_row.
  induction 1 as [|v cells Hv _ IH]; simpl; [reflexivity|].
  rewrite (float_number v Hv), IH. reflexivity.
Qed.

(** Method 2 on an encoded map: one cell per model feature, [0] where the map
    has no entry. *)
Lemma raw_model_input_numbers (self : HousePricePredictor) (names : list string)
    (encoded : dict value) :
  model_features self = Some names ->
  (forall k v, get encoded k = Some v -> is_number v = true) ->
  raw_model_input float_str self encoded =
  Returned (map (fun f => real_of (get_default encoded f (VInt 0))) names).
Proof.
  intros Hnames Hnum. unfold raw_model_input, iter_model_features.
  rewrite Hnames. simpl.
  rewrite float64_row_numbers.
  - now rewrite map_map.
  - apply Forall_map. apply Forall_forall. intros f _. unfold get_default.
    destruct (get encoded f) as [v|] eqn:E; [eauto | reflexivity].
Qed.

Lemma encode_numbers (self : HousePricePredictor) (features encoded : dict value) :
  encode float_str self features = Returned encoded ->
  forall k v, get encoded k = Some v -> is_number v = true.
Proof.
  intros Henc. unfold encode in Henc.
  destruct (model_features self) as [names|] eqn:Hnames.
  - apply (encode_items_numbers float_str self names Hnames features [] encoded Henc).
    intros k v H. discriminate.
  - destruct features as [|[k0 v0] features]; simpl in Henc.
    + injection Henc as <-. intros k v H. discriminate.
    + unfold in_model_features in Henc. rewrite Hnames in Henc. discriminate.
Qed.

Lemma interval_entries_cases (self : HousePricePredictor) (feature_array : list R)
    (prediction : R) :
  interval_entries self feature_array prediction = [] \/
  exists std_dev,
    interval_entries self feature_array prediction =
    [ ("std_deviation", IVal (VFloat std_dev));
      ("confidence_interval",
       IDict [ ("lower", max0 (prediction - 1.96 * std_dev));
               ("upper", VFloat (prediction + 1.96 * std_dev)) ]) ].
Proof.
  unfold interval_entries.
  destruct (model self) as [m|]; [|now left].
  destruct (estimators_ m) as [trees|]; [|now left].
  destruct (tree_predictions trees feature_array); [right; eauto | now left].
Qed.

Lemma category_entries_cases (prediction : R) :
  exists label color,
    category_entries prediction =
    [("category", IVal (VStr label)); ("category_color", IVal (VStr color))].
Proof.
  unfold category_entries.
  destruct (Rlt_dec prediction 150000); [eauto|].
  destruct (Rgt_dec prediction 400000); eauto.
Qed.

(** The entries of [info] that the theorems below read. *)
Lemma prediction_info_get (self : HousePricePredictor) (feature_array : list R)
    (prediction : R) (user_inputs : dict value) (info : dict infoval) :
  _get_prediction_info self feature_array prediction user_inputs = Returned info ->
  get info "error" = None /\
  get info "confidence" = Some (IVal (VStr "Medium")) /\
  get info "input_features_count" = Some (IVal (VInt (len user_inputs))) /\
  get info "confidence_interval" =
    get (interval_entries self feature_array prediction) "confidence_interval".
Proof.
  unfold _get_prediction_info.
  destruct (model_features self) as [names|]; [|discriminate].
  intros [= <-]. rewrite !get_update.
  destruct (category_entries_cases prediction) as (label & color & ->).
  destruct (interval_entries_cases self feature_array prediction) as [-> | [std_dev ->]];
    simpl; auto.
Qed.

Lemma prediction_info_returns (self : HousePricePredictor) (names : list string)
    (feature_array : list R) (prediction : R) (user_inputs : dict value) :
  model_features self = Some names ->
  exists info, _get_prediction_info self feature_array prediction user_inputs = Returned info.
Proof. intros H. unfold _get_prediction_info. rewrite H. eauto. Qed.

(** A prediction without [error] entry went through every step of the [try]
    block. *)
Lemma predict_price_success_inv (self : HousePricePredictor) (features : dict value)
    (price : R) (info : dict infoval) :
  predict_price float_str self features = Returned (price, info) ->
  get info "error" = None ->
  exists m encoded model_input prediction_log,
    model self = Some m /\
    encode float_str self features = Returned encoded /\
    model_input_of float_str self encoded = Returned model_input /\
    predict m model_input = Returned prediction_log /\
    price = exp prediction_log /\
    _get_prediction_info self model_input (exp prediction_log) encoded = Returned info.
Proof.
  unfold predict_price.
  destruct (model self) as [m|]; [|discriminate].
  destruct (predict_body float_str self m features) as [[price' info']|e] eqn:Hbody.
  - intros [= -> ->] _. unfold predict_body in Hbody.
    destruct (encode float_str self features) as [encoded|] eqn:Henc;
      simpl in Hbody; [|discriminate].
    destruct (model_input_of float_str self encoded) as [model_input|] eqn:Hin;
      simpl in Hbody; [|discriminate].
    destruct (predict m model_input) as [prediction_log|] eqn:Hpred;
      simpl in Hbody; [|discriminate].
    destruct (_get_prediction_info self model_input (exp prediction_log) encoded)
      as [info'|] eqn:Hinfo; simpl in Hbody; [|discriminate].
    injection Hbody as <- <-.
    exists m, encoded, model_input, prediction_log. auto 10.
  - intros [= <- <-]. simpl. discriminate.
Qed.

(** When the steps of the [try] block return, so does [predict_price]. *)
Lemma predict_price_returns (self : HousePricePredictor) (m : Model) (names : list string)
    (features encoded : dict value) (model_input : list R) (prediction_log : R) :
  model self = Some m ->
  model_features self = Some names ->
  encode float_str self features = Returned encoded ->
  model_input_of float_str self encoded = Returned model_input ->
  predict m model_input = Returned prediction_log ->
  exists info,
    predict_price float_str self features = Returned (exp prediction_log, info) /\
    _get_prediction_info self model_input (exp prediction_log) encoded = Returned info.
Proof.
  intros Hm Hnames Henc Hin Hpred.
  destruct (prediction_info_returns self names model_input (exp prediction_log) encoded Hnames)
    as [info Hinfo].
  exists info. split; [|exact Hinfo].
  unfold predict_price, predict_body. rewrite Hm, Henc. simpl.
  rewrite Hin. simpl. rewrite Hpred. simpl. rewrite Hinfo. reflexivity.
Qed.

(** A raising step of the [try] block becomes the [(0, {'error': ...})] result. *)
Lemma predict_price_encode_raises (self : HousePricePredictor) (m : Model)
    (features : dict value) (e : exn) :
  model self = Some m ->
  encode float_str self features = Raised e ->
  predict_price float_str self features = Returned (0, [("error", IVal (VStr (exn_msg e)))]).
Proof.
  intros Hm Henc. unfold predict_price, predict_body. rewrite Hm, Henc. reflexivity.
Qed.

End PredictionFacts.

(** C2, as the code has it.  When [joblib.load] never gave a model,
    [self.model] is [None] and every call of [predict_price], whatever the
    input map, raises [ValueError("Model not loaded")] from the guard that
    stands before the [try] block: no encoding, no inference, and the exception
    reaches the caller. *)
Theorem model_not_loaded_raises
    (float_str : string -> option R) (a : Artifacts) (features : dict value) :
  (forall m, house_price_model_joblib a <> Some (Returned m)) ->
  model (init a) = None /\
  predict_price float_str (init a) features = Raised (ValueError "Model not loaded").
Proof.
  intros Hnone.
  assert (Hm : model (init a) = None).
  { unfold init, _load_model.
    destruct (house_price_model_joblib a) as [[m|e]|]; [now destruct (Hnone m)| |];
      destruct (_load_scaler a); reflexivity. }
  split; [exact Hm|].
  unfold predict_price. now rewrite Hm.
Qed.

Lemma model_not_loaded_raises_witness :
  model (init no_artifacts) = None /\
  predict_price float_digits (init no_artifacts) fifteen_features
  = Raised (ValueError "Model not loaded").
Proof.
  apply (model_not_loaded_raises float_digits no_artifacts fifteen_features).
  intros m H. discriminate H.
Defined.

(** C2 as stated fails: with no model on disk the call does not return a
    structured result, the [ValueError] escapes [predict_price]. *)
Lemma model_unavailable_counterexample :
  model (init no_artifacts) = None /\
  predict_price float_digits (init no_artifacts) [] = Raised (ValueError "Model not loaded") /\
  ~ (exists result, predict_price float_digits (init no_artifacts) [] = Returned result).
Proof.
  split; [reflexivity|]. split; [reflexivity|].
  intros [result H]. discriminate H.
Qed.

(** C10, as the code has it.  Error shape: with the model loaded, a string
    that [float] rejects, supplied for a non-categorical attribute that is in
    [self.model_features], makes the call return [(0, {'error': msg})] with
    [msg] not empty; the exception is caught inside [predict_price]. *)
Theorem non_numeric_value_error_shape
    (float_str : string -> option R) (self : HousePricePredictor) (m : Model)
    (names : list string) (features : dict value) (k s : string) :
  model self = Some m ->
  model_features self = Some names ->
  In (k, VStr s) features ->
  contains names k = true ->
  is_categorical k = false ->
  float_str s = None ->
  exists msg,
    predict_price float_str self features = Returned (0, [("error", IVal (VStr msg))]) /\
    msg <> "".
Proof.
  intros Hm Hnames Hin Hk Hc Hs.
  destruct (encode_items_raises float_str self names Hnames features k s Hin Hk Hc Hs [])
    as (e & Henc & Hmsg).
  exists (exn_msg e). split; [|exact Hmsg].
  now apply (predict_price_encode_raises float_str self m).
Qed.

Lemma non_numeric_value_error_shape_witness :
  exists msg,
    predict_price float_digits (init (model_only (constant_model 12)))
      [("OverallQual", VInt 7); ("GrLivArea", VStr "abc")]
    = Returned (0, [("error", IVal (VStr msg))]) /\
    msg <> "".
Proof.
  apply (non_numeric_value_error_shape float_digits
           (init (model_only (constant_model 12))) (constant_model 12)
           fallback_model_features _ "GrLivArea" "abc");
    try reflexivity.
  simpl. tauto.
Defined.

(** C10 as stated fails: ["abc"] is supplied for the numeric attribute
    [LotArea], which is not a feature of the model; the loop never calls
    [float] on it and the call returns a price with no [error] entry. *)
Lemma non_numeric_value_counterexample :
  is_categorical "LotArea" = false /\
  float float_digits (VStr "abc")
  = Raised (ValueError "could not convert string to float: 'abc'") /\
  exists info,
    predict_price float_digits (init (model_only (constant_model 12)))
      [("LotArea", VStr "abc")] = Returned (exp 12, info) /\
    get info "error" = None /\
    exp 12 <> 0.
Proof.
  split; [reflexivity|]. split; [reflexivity|].
  destruct (predict_price_returns float_digits (init (model_only (constant_model 12)))
              (constant_model 12) fallback_model_features [("LotArea", VStr "abc")] []
              (map (fun _ => 0) fallback_model_features) 12
              eq_refl eq_refl eq_refl eq_refl eq_refl) as (info & Hp & Hinfo).
  exists info. split; [exact Hp|].
  split; [apply (prediction_info_get _ _ _ _ _ Hinfo)|].
  pose proof (exp_pos 12). lra.
Qed.

(** C8.  Log/exp output transform: a prediction that returns without [error]
    entry reports [exp] of the scalar the model gave on the model input built
    from the encoded map. *)
Theorem price_is_exp_of_model_output
    (float_str : string -> option R) (self : HousePricePredictor)
    (features : dict value) (price : R) (info : dict infoval) :
  predict_price float_str self features = Returned (price, info) ->
  get info "error" = None ->
  exists m encoded model_input prediction_log,
    model self = Some m /\
    encode float_str self features = Returned encoded /\
    model_input_of float_str self encoded = Returned model_input /\
    predict m model_input = Returned prediction_log /\
    price = exp prediction_log.
Proof.
  intros Hp Herr.
  destruct (predict_price_success_inv float_str self features price info Hp Herr)
    as (m & encoded & model_input & prediction_log & H1 & H2 & H3 & H4 & H5 & _).
  exists m, encoded, model_input, prediction_log. auto.
Qed.

(** The scaled path on a concrete request: the model's columns of the scaled
    full vector, in the model's order. *)
Lemma two_column_request :
  encode float_digits two_column_predictor [("GrLivArea", VInt 1710)]
  = Returned [("GrLivArea", VFloat 1710)] /\
  model_input_of float_digits two_column_predictor [("GrLivArea", VFloat 1710)]
  = Returned [1710; 8000].
Proof. split; reflexivity. Qed.

Lemma price_is_exp_of_model_output_witness :
  exists info,
    predict_price float_digits two_column_predictor [("GrLivArea", VInt 1710)]
    = Returned (exp 12, info) /\
    get info "error" = None /\
    exists m encoded model_input prediction_log,
      model two_column_predictor = Some m /\
      encode float_digits two_column_predictor [("GrLivArea", VInt 1710)] = Returned encoded /\
      model_input_of float_digits two_column_predictor encoded = Returned model_input /\
      predict m model_input = Returned prediction_log /\
      exp 12 = exp prediction_log.
Proof.
  destruct (predict_price_returns float_digits two_column_predictor (constant_model 12)
              ["GrLivArea"; "LotArea"] [("GrLivArea", VInt 1710)]
              [("GrLivArea", VFloat 1710)] [1710; 8000] 12
              eq_refl eq_refl (proj1 two_column_request) (proj2 two_column_request) eq_refl)
    as (info & Hp & Hinfo).
  exists info.
  pose proof (proj1 (prediction_info_get _ _ _ _ _ Hinfo)) as Herr.
  split; [exact Hp|]. split; [exact Herr|].
  exact (price_is_exp_of_model_output float_digits two_column_predictor _ _ _ Hp Herr).
Defined.

(* ================================================================== *)
(** ** Confidence label *)

Lemma display_confidence_text (prediction : R) (info : dict infoval) (n : Z) :
  get info "input_features_count" = Some (IVal (VInt n)) ->
  exists shown,
    display_confidence_interval prediction info = Returned shown /\
    confidence_text shown = if (15 <=? n)%Z then "High" else "Medium".
Proof.
  intros H. unfold display_confidence_interval, get_default. rewrite H. simpl.
  destruct (15 <=? n)%Z; simpl.
  - eexists; split; reflexivity.
  - destruct (10 <=? n)%Z; simpl; eexists; split; reflexivity.
Qed.

(** The form's fifteen attributes on the hardcoded schema: fifteen entries
    are encoded and the log-price 12 is reported as [exp 12]. *)
Lemma fifteen_features_request :
  exists encoded info,
    encode float_digits (init (model_only (constant_model 12))) fifteen_features
    = Returned encoded /\
    len encoded = 15%Z /\
    predict_price float_digits (init (model_only (constant_model 12))) fifteen_features
    = Returned (exp 12, info) /\
    get info "error" = None /\
    get info "confidence" = Some (IVal (VStr "Medium")) /\
    get info "input_features_count" = Some (IVal (VInt 15)).
Proof.
  set (self := init (model_only (constant_model 12))).
  destruct (encode float_digits self fifteen_features) as [encoded|] eqn:Henc;
    [|discriminate Henc].
  assert (Hlen : len encoded = 15%Z).
  { injection Henc as <-. reflexivity. }
  assert (Hin : model_input_of float_digits self encoded =
                Returned (map (fun f => real_of (get_default encoded f (VInt 0)))
                              fallback_model_features)).
  { apply (raw_model_input_numbers float_digits self fallback_model_features encoded eq_refl).
    apply (encode_numbers float_digits self fifteen_features encoded Henc). }
  destruct (predict_price_returns float_digits self (constant_model 12)
              fallback_model_features fifteen_features encoded _ 12
              eq_refl eq_refl Henc Hin eq_refl) as (info & Hp & Hinfo).
  destruct (prediction_info_get _ _ _ _ _ Hinfo) as (Herr & Hconf & Hcount & _).
  exists encoded, info. rewrite Hlen in Hcount. auto 10.
Qed.

(** C3, as the code has it.  On a returned prediction without [error]
    entry, [info] carries the label "Medium" (whatever the number of
    attributes), next to [input_features_count], the number of encoded
    attributes (the supplied attributes that are in the model's schema).
    [display_confidence_interval], given that price and [info], shows "High"
    when the count is at least 15 and "Medium" otherwise (so also for 14 and
    for 8). *)
Theorem confidence_label_medium_in_info
    (float_str : string -> option R) (self : HousePricePredictor)
    (features : dict value) (price : R) (info : dict infoval) :
  predict_price float_str self features = Returned (price, info) ->
  get info "error" = None ->
  exists encoded,
    encode float_str self features = Returned encoded /\
    get info "confidence" = Some (IVal (VStr "Medium")) /\
    get info "input_features_count" = Some (IVal (VInt (len encoded))) /\
    (exists shown,
       display_confidence_interval price info = Returned shown /\
       confidence_text shown = if (15 <=? len encoded)%Z then "High" else "Medium") /\
    (forall names, model_features self = Some names -> NoDup (keys features) ->
       len encoded =
       Z.of_nat (length (filter (fun kv => contains names (fst kv)) features))).
Proof.
  intros Hp Herr.
  destruct (predict_price_success_inv float_str self features price info Hp Herr)
    as (m & encoded & model_input & prediction_log & _ & Henc & _ & _ & _ & Hinfo).
  destruct (prediction_info_get _ _ _ _ _ Hinfo) as (_ & Hconf & Hcount & _).
  exists encoded. split; [exact Henc|]. split; [exact Hconf|]. split; [exact Hcount|].
  split.
  - now apply display_confidence_text.
  - intros names Hnames Hnd. unfold len. f_equal.
    apply (encode_items_length float_str self names Hnames features Hnd [] encoded Henc).
    reflexivity.
Qed.

Lemma confidence_label_medium_in_info_witness :
  exists info encoded shown,
    predict_price float_digits (init (model_only (constant_model 12))) fifteen_features
    = Returned (exp 12, info) /\
    encode float_digits (init (model_only (constant_model 12))) fifteen_features
    = Returned encoded /\
    len encoded = 15%Z /\
    get info "confidence" = Some (IVal (VStr "Medium")) /\
    display_confidence_interval (exp 12) info = Returned shown /\
    confidence_text shown = "High".
Proof.
  destruct fifteen_features_request as (encoded0 & info & _ & _ & Hp & Herr & _ & _).
  destruct (confidence_label_medium_in_info float_digits _ _ _ _ Hp Herr)
    as (encoded & Henc & Hconf & _ & (shown & Hshown & Htext) & Hlen).
  specialize (Hlen fallback_model_features eq_refl).
  assert (Hnd : NoDup (keys fifteen_features)).
  { assert (H : nodup string_dec (keys fifteen_features) = keys fifteen_features)
      by (vm_compute; reflexivity).
    rewrite <- H. apply NoDup_nodup. }
  specialize (Hlen Hnd). change (len encoded = 15%Z) in Hlen.
  rewrite Hlen in Htext.
  exists info, encoded, shown. auto 10.
Defined.

(** C3 as stated fails: fifteen distinct attributes of the reduced schema are
    supplied and the label in the returned [info] is "Medium", not "High". *)
Lemma confidence_label_counterexample :
  exists info,
    predict_price float_digits (init (model_only (constant_model 12))) fifteen_features
    = Returned (exp 12, info) /\
    get info "input_features_count" = Some (IVal (VInt 15)) /\
    get info "confidence" = Some (IVal (VStr "Medium")) /\
    get info "confidence" <> Some (IVal (VStr "High")).
Proof.
  destruct fifteen_features_request as (encoded & info & _ & _ & Hp & _ & Hconf & Hcount).
  exists info. split; [exact Hp|]. split; [exact Hcount|]. split; [exact Hconf|].
  rewrite Hconf. discriminate.
Qed.

(** The label shown for 15, 14 and 8 supplied attributes, and for an [info]
    without count (where the display assumes 8). *)
Lemma display_labels :
  (exists shown, display_confidence_interval 200000
                   [("input_features_count", IVal (VInt 15))] = Returned shown
                 /\ confidence_text shown = "High") /\
  (exists shown, display_confidence_interval 200000
                   [("input_features_count", IVal (VInt 14))] = Returned shown
                 /\ confidence_text shown = "Medium") /\
  (exists shown, display_confidence_interval 200000
                   [("input_features_count", IVal (VInt 8))] = Returned shown
                 /\ confidence_text shown = "Medium") /\
  (exists shown, display_confidence_interval 200000 [] = Returned shown
                 /\ confidence_text shown = "Medium").
Proof. repeat split; eexists; split; reflexivity. Qed.

(* ================================================================== *)
(** ** Degraded mode and the ensemble interval *)

Lemma encode_items_with_scaler (float_str : string -> option R)
    (self : HousePricePredictor) (s : option Scaler) (items : list (string * value)) :
  forall acc,
    encode_items float_str (with_scaler self s) items acc =
    encode_items float_str self items acc.
Proof.
  induction items as [|[k v] items IH]; intros acc; simpl; [reflexivity|].
  change (in_model_features (with_scaler self s) k) with (in_model_features self k).
  destruct (in_model_features self k) as [[|]|]; simpl; [|apply IH|reflexivity].
  destruct (encode_value float_str k v); simpl; [apply IH | reflexivity].
Qed.

(** Without scaler features nothing of [predict_price] reads [self.scaler]. *)
Lemma predict_price_ignores_scaler (float_str : string -> option R)
    (self : HousePricePredictor) (s : option Scaler) (features : dict value) :
  scaler_features self = None \/ scaler_features self = Some [] ->
  predict_price float_str (with_scaler self s) features =
  predict_price float_str self features.
Proof.
  intros Hdegraded. unfold predict_price, predict_body, encode.
  change (model (with_scaler self s)) with (model self).
  destruct (model self) as [m|]; [|reflexivity].
  rewrite encode_items_with_scaler.
  destruct (encode_items float_str self features []) as [encoded|]; simpl; [|reflexivity].
  assert (Hin : model_input_of float_str (with_scaler self s) encoded =
                model_input_of float_str self encoded).
  { unfold model_input_of.
    change (scaler_features (with_scaler self s)) with (scaler_features self).
    destruct Hdegraded as [-> | ->]; reflexivity. }
  rewrite Hin. reflexivity.
Qed.

Lemma max0_clips (x : R) : real_of (max0 x) = Rmax 0 x.
Proof.
  unfold max0. destruct (Rlt_dec 0 x) as [H | H]; simpl.
  - rewrite Rmax_right; lra.
  - rewrite Rmax_left; lra.
Qed.

(** [np.std] on two values: [np.std([1.0, 3.0]) == 1.0]. *)
Lemma np_std_two_values : np_std [1; 3] = 1.
Proof.
  unfold np_std, mean. simpl.
  rewrite <- !Rsqr_abs. unfold Rsqr.
  replace ((((1 - (1 + (3 + 0)) / (1 + 1)) * (1 - (1 + (3 + 0)) / (1 + 1)) +
            ((3 - (1 + (3 + 0)) / (1 + 1)) * (3 - (1 + (3 + 0)) / (1 + 1)) + 0)) /
           (1 + 1))) with 1 by field.
  apply sqrt_1.
Qed.

(** C5, as the code has it.  Without scaler features, when encoding and the
    model's [predict] return, the call returns as price [exp] of the model's
    output on the vector holding, for each model feature, the encoded value or
    [0], with no [error] entry; [self.scaler] is not read.  Whether [info] has
    a confidence interval depends on the model alone: none without
    [estimators_], one as soon as the sub-estimators answer. *)
Theorem degraded_mode_prediction
    (float_str : string -> option R) (self : HousePricePredictor) (m : Model)
    (names : list string) (features encoded : dict value) (prediction_log : R) :
  scaler_features self = None \/ scaler_features self = Some [] ->
  model self = Some m ->
  model_features self = Some names ->
  encode float_str self features = Returned encoded ->
  predict m (map (fun f => real_of (get_default encoded f (VInt 0))) names)
  = Returned prediction_log ->
  exists info,
    predict_price float_str self features = Returned (exp prediction_log, info) /\
    get info "error" = None /\
    model_input_of float_str self encoded =
      Returned (map (fun f => real_of (get_default encoded f (VInt 0))) names) /\
    (forall s, predict_price float_str (with_scaler self s) features =
               predict_price float_str self features) /\
    (estimators_ m = None -> get info "confidence_interval" = None) /\
    (forall trees outputs,
       estimators_ m = Some trees ->
       mapM (fun tree =>
               tree_predict tree
                 (map (fun f => real_of (get_default encoded f (VInt 0))) names)) trees
       = Returned outputs ->
       exists interval, get info "confidence_interval" = Some (IDict interval)).
Proof.
  intros Hdegraded Hm Hnames Henc Hpred.
  assert (Hin : model_input_of float_str self encoded =
                Returned (map (fun f => real_of (get_default encoded f (VInt 0))) names)).
  { unfold model_input_of.
    rewrite <- (raw_model_input_numbers float_str self names encoded Hnames
                  (encode_numbers float_str self features encoded Henc)).
    destruct Hdegraded as [-> | ->]; reflexivity. }
  destruct (predict_price_returns float_str self m names features encoded _ prediction_log
              Hm Hnames Henc Hin Hpred) as (info & Hp & Hinfo).
  destruct (prediction_info_get _ _ _ _ _ Hinfo) as (Herr & _ & _ & Hci).
  exists info.
  split; [exact Hp|]. split; [exact Herr|]. split; [exact Hin|].
  split; [intros s; now apply predict_price_ignores_scaler|].
  split.
  - intros Hnone. rewrite Hci. unfold interval_entries. now rewrite Hm, Hnone.
  - intros trees outputs Htrees Hout. rewrite Hci.
    unfold interval_entries, tree_predictions. rewrite Hm, Htrees, Hout. simpl.
    eauto.
Qed.

Lemma degraded_mode_prediction_witness :
  exists info,
    predict_price float_digits (init (model_only two_tree_model))
      [("GrLivArea", VInt 1710); ("CentralAir", VStr "Y")] = Returned (exp 0, info) /\
    get info "error" = None /\
    model_input_of float_digits (init (model_only two_tree_model))
      [("GrLivArea", VFloat 1710); ("CentralAir", VInt 1)]
    = Returned [0; 0; 0; 0; 0; 0; 0; 0; 0; 1; 0; 1710; 0; 0; 0; 0; 0; 0; 0; 0; 0] /\
    exists interval, get info "confidence_interval" = Some (IDict interval).
Proof.
  destruct (degraded_mode_prediction float_digits (init (model_only two_tree_model))
              two_tree_model fallback_model_features
              [("GrLivArea", VInt 1710); ("CentralAir", VStr "Y")]
              [("GrLivArea", VFloat 1710); ("CentralAir", VInt 1)] 0
              (or_introl eq_refl) eq_refl eq_refl eq_refl eq_refl)
    as (info & Hp & Herr & Hin & _ & _ & Hci).
  exists info. split; [exact Hp|]. split; [exact Herr|]. split; [exact Hin|].
  exact (Hci [constant_tree 0; constant_tree 0] [0; 0] eq_refl eq_refl).
Defined.

(** C5 as stated fails: no normalization artifact, an ensemble model, and the
    returned [info] has a confidence interval. *)
Lemma degraded_mode_counterexample :
  scaler (init (model_only two_tree_model)) = None /\
  scaler_features (init (model_only two_tree_model)) = None /\
  exists info interval,
    predict_price float_digits (init (model_only two_tree_model)) []
    = Returned (exp 0, info) /\
    get info "confidence_interval" = Some (IDict interval).
Proof.
  split; [reflexivity|]. split; [reflexivity|].
  destruct (predict_price_returns float_digits (init (model_only two_tree_model))
              two_tree_model fallback_model_features [] []
              (map (fun _ => 0) fallback_model_features) 0
              eq_refl eq_refl eq_refl eq_refl eq_refl) as (info & Hp & Hinfo).
  destruct (prediction_info_get _ _ _ _ _ Hinfo) as (_ & _ & _ & Hci).
  exists info. eexists. split; [exact Hp|]. rewrite Hci. reflexivity.
Qed.

(** C9, as the code has it.  On a returned prediction with a model that has
    [estimators_]: when every sub-estimator answers on the model input, [info]
    carries the interval [price - 1.96 sigma, price + 1.96 sigma], its lower end
    clipped at 0, with [sigma] the [np.std] (divisor N) of the exponentiated
    per-estimator predictions; when one of them raises, [except: pass] leaves
    [info] without interval. *)
Theorem ensemble_confidence_interval
    (float_str : string -> option R) (self : HousePricePredictor) (m : Model)
    (trees : list Estimator) (features : dict value) (price : R) (info : dict infoval) :
  model self = Some m ->
  estimators_ m = Some trees ->
  predict_price float_str self features = Returned (price, info) ->
  get info "error" = None ->
  exists encoded model_input,
    encode float_str self features = Returned encoded /\
    model_input_of float_str self encoded = Returned model_input /\
    (forall outputs,
       mapM (fun tree => tree_predict tree model_input) trees = Returned outputs ->
       let sigma := np_std (map exp outputs) in
       get info "confidence_interval" =
         Some (IDict [ ("lower", max0 (price - 1.96 * sigma));
                       ("upper", VFloat (price + 1.96 * sigma)) ]) /\
       real_of (max0 (price - 1.96 * sigma)) = Rmax 0 (price - 1.96 * sigma)) /\
    (forall e,
       mapM (fun tree => tree_predict tree model_input) trees = Raised e ->
       get info "confidence_interval" = None).
Proof.
  intros Hm Htrees Hp Herr.
  destruct (predict_price_success_inv float_str self features price info Hp Herr)
    as (m' & encoded & model_input & prediction_log & Hm' & Henc & Hin & _ & Hprice & Hinfo).
  rewrite Hm in Hm'. injection Hm' as <-.
  destruct (prediction_info_get _ _ _ _ _ Hinfo) as (_ & _ & _ & Hci).
  exists encoded, model_input. split; [exact Henc|]. split; [exact Hin|].
  rewrite <- Hprice in Hci.
  split.
  - intros outputs Hout. simpl. split; [|apply max0_clips].
    rewrite Hci. unfold interval_entries, tree_predictions.
    rewrite Hm, Htrees, Hout. reflexivity.
  - intros e Hout. rewrite Hci. unfold interval_entries, tree_predictions.
    rewrite Hm, Htrees, Hout. reflexivity.
Qed.

Lemma ensemble_confidence_interval_witness :
  exists info,
    predict_price float_digits (init (model_only two_tree_model)) []
    = Returned (exp 0, info) /\
    get info "confidence_interval" =
      Some (IDict [ ("lower", max0 (exp 0 - 1.96 * np_std [exp 0; exp 0]));
                    ("upper", VFloat (exp 0 + 1.96 * np_std [exp 0; exp 0])) ]).
Proof.
  destruct (predict_price_returns float_digits (init (model_only two_tree_model))
              two_tree_model fallback_model_features [] []
              (map (fun _ => 0) fallback_model_features) 0
              eq_refl eq_refl eq_refl eq_refl eq_refl) as (info & Hp & Hinfo).
  pose proof (proj1 (prediction_info_get _ _ _ _ _ Hinfo)) as Herr.
  exists info. split; [exact Hp|].
  destruct (ensemble_confidence_interval float_digits
              (init (model_only two_tree_model)) two_tree_model
              [constant_tree 0; constant_tree 0] [] (exp 0) info
              eq_refl eq_refl Hp Herr)
    as (encoded & model_input & _ & _ & Hall & _).
  exact (proj1 (Hall [0; 0] eq_refl)).
Defined.

(** C9 as stated fails: the model has [estimators_], the prediction returns
    a price, and [info] carries no confidence interval, since the
    sub-estimator raised inside the [try] of [_get_prediction_info]. *)
Lemma ensemble_interval_counterexample :
  estimators_ unreadable_ensemble_model = Some [unreadable_tree] /\
  exists info,
    predict_price float_digits (init (model_only unreadable_ensemble_model)) []
    = Returned (exp 0, info) /\
    get info "error" = None /\
    get info "confidence_interval" = None.
Proof.
  split; [reflexivity|].
  destruct (predict_price_returns float_digits (init (model_only unreadable_ensemble_model))
              unreadable_ensemble_model fallback_model_features [] []
              (map (fun _ => 0) fallback_model_features) 0
              eq_refl eq_refl eq_refl eq_refl eq_refl) as (info & Hp & Hinfo).
  destruct (prediction_info_get _ _ _ _ _ Hinfo) as (Herr & _ & _ & Hci).
  exists info. split; [exact Hp|]. split; [exact Herr|]. rewrite Hci. reflexivity.
Qed.

(* ================================================================== *)
(** ** Further properties of prediction *)

Lemma keys_set {V : Type} (d : dict V) (k : string) (v : V) :
  keys (set d k v) = if contains (keys d) k then keys d else (keys d ++ [k])%list.
Proof.
  induction d as [|[k0 v0] d IH]; simpl; [reflexivity|].
  destruct (String.eqb k k0); simpl; [reflexivity|].
  rewrite IH. destruct (contains (keys d) k); reflexivity.
Qed.

Lemma NoDup_keys_set {V : Type} (d : dict V) (k : string) (v : V) :
  NoDup (keys d) -> NoDup (keys (set d k v)).
Proof.
  intros Hnd. rewrite keys_set.
  destruct (contains (keys d) k) eqn:E; [exact Hnd|].
  assert (Hnot : ~ In k (keys d)).
  { intros H. apply contains_In in H. congruence. }
  apply NoDup_rev in Hnd. rewrite <- (rev_involutive (keys d ++ [k])).
  apply NoDup_rev. rewrite rev_app_distr. simpl. constructor; [|exact Hnd].
  now rewrite <- in_rev.
Qed.

Lemma In_keys_set {V : Type} (d : dict V) (k k' : string) (v : V) :
  In k' (keys (set d k v)) -> k' = k \/ In k' (keys d).
Proof.
  rewrite keys_set. destruct (contains (keys d) k); [tauto|].
  rewrite in_app_iff. simpl. intuition.
Qed.

Section MorePredictionFacts.

Variable float_str : string -> option R.
Variable self : HousePricePredictor.
Variable names : list string.
Hypothesis model_features_loaded : model_features self = Some names.

(** The keys the loop stores are distinct, belong to the schema and were
    supplied. *)
Lemma encode_items_keys (items : list (string * value)) :
  forall acc encoded, encode_items float_str self items acc = Returned encoded ->
  NoDup (keys acc) ->
  NoDup (keys encoded) /\
  (forall k, In k (keys encoded) ->
     In k (keys acc) \/ (In k names /\ In k (keys items))).
Proof.
  induction items as [|[k0 v0] items IH]; intros acc encoded Henc Hnd.
  - simpl in Henc. injection Henc as <-. auto.
  - rewrite (encode_items_cons float_str self names model_features_loaded) in Henc.
    destruct (contains names k0) eqn:Ec.
    + destruct (encode_value float_str k0 v0) as [e|e] eqn:Ee; simpl in Henc; [|discriminate].
      destruct (IH _ _ Henc (NoDup_keys_set acc k0 e Hnd)) as [H1 H2].
      split; [exact H1|]. intros k Hk.
      destruct (H2 k Hk) as [H | [H3 H4]].
      * destruct (In_keys_set _ _ _ _ H) as [-> | H'].
        -- right. split; [now apply contains_In | now left].
        -- now left.
      * right. split; [exact H3 | now right].
    + destruct (IH _ _ Henc Hnd) as [H1 H2].
      split; [exact H1|]. intros k Hk.
      destruct (H2 k Hk) as [H | [H3 H4]]; [now left|].
      right. split; [exact H3 | now right].
Qed.

Lemma encode_keys (features encoded : dict value) :
  encode float_str self features = Returned encoded ->
  NoDup (keys encoded) /\
  (forall k, In k (keys encoded) -> In k names /\ In k (keys features)).
Proof.
  intros Henc.
  destruct (encode_items_keys features [] encoded Henc (NoDup_nil _)) as [H1 H2].
  split; [exact H1|]. intros k Hk. destruct (H2 k Hk) as [[] | H]. exact H.
Qed.

Lemma encode_length_bound (features encoded : dict value) :
  encode float_str self features = Returned encoded ->
  (length encoded <= length names)%nat.
Proof.
  intros Henc. destruct (encode_keys features encoded Henc) as [Hnd Hin].
  unfold keys in *. rewrite <- (length_map fst encoded).
  apply NoDup_incl_length; [exact Hnd|].
  intros k Hk. now apply Hin.
Qed.

(** The loop never looks at an attribute outside the schema. *)
Lemma encode_items_filter (items : list (string * value)) :
  forall acc,
    encode_items float_str self (filter (fun kv => contains names (fst kv)) items) acc =
    encode_items float_str self items acc.
Proof.
  induction items as [|[k v] items IH]; intros acc; [reflexivity|].
  rewrite (encode_items_cons float_str self names model_features_loaded). simpl.
  destruct (contains names k) eqn:Ek.
  - rewrite (encode_items_cons float_str self names model_features_loaded), Ek.
    destruct (encode_value float_str k v); simpl; [apply IH | reflexivity].
  - apply IH.
Qed.

End MorePredictionFacts.

(** Every entry of [info], read through its three parts. *)
Lemma prediction_info_lookup (self : HousePricePredictor) (feature_array : list R)
    (prediction : R) (user_inputs : dict value) (info : dict infoval) :
  _get_prediction_info self feature_array prediction user_inputs = Returned info ->
  exists names,
    model_features self = Some names /\
    forall k,
      get info k =
      match get (interval_entries self feature_array prediction) k with
      | Some v => Some v
      | None =>
          match get (category_entries prediction) k with
          | Some v => Some v
          | None =>
              get [ ("prediction", IVal (VFloat prediction));
                    ("formatted_prediction", IMoney prediction);
                    ("confidence", IVal (VStr "Medium"));
                    ("input_features_count", IVal (VInt (len user_inputs)));
                    ("missing_features_count",
                     IVal (VInt (Z.of_nat (length names) - len user_inputs))) ] k
          end
      end.
Proof.
  unfold _get_prediction_info.
  destruct (model_features self) as [names|]; [|discriminate].
  intros [= <-]. exists names. split; [reflexivity|]. intros k.
  rewrite !get_update.
  destruct (category_entries_cases prediction) as (label & color & ->).
  destruct (interval_entries_cases self feature_array prediction) as [-> | [std_dev ->]].
  - rewrite !get_rev_NoDup by (repeat constructor; simpl; intuition discriminate).
    reflexivity.
  - rewrite !get_rev_NoDup by (repeat constructor; simpl; intuition discriminate).
    reflexivity.
Qed.

(** X2.  Attributes outside [self.model_features] never influence the
    result: the call gives the same result, fault included, as on the input
    restricted to the schema. *)
Theorem attributes_outside_schema_ignored
    (float_str : string -> option R) (self : HousePricePredictor)
    (names : list string) (features : dict value) :
  model_features self = Some names ->
  predict_price float_str self (filter (fun kv => contains names (fst kv)) features) =
  predict_price float_str self features.
Proof.
  intros Hnames. unfold predict_price, predict_body, encode.
  now rewrite (encode_items_filter float_str self names Hnames).
Qed.

Lemma attributes_outside_schema_ignored_witness :
  predict_price float_digits (init (model_only (constant_model 12)))
    [("GrLivArea", VInt 1710)] =
  predict_price float_digits (init (model_only (constant_model 12)))
    [("LotArea", VInt 9000); ("GrLivArea", VInt 1710); ("HouseStyle", VStr "1Story")].
Proof.
  apply (attributes_outside_schema_ignored float_digits
           (init (model_only (constant_model 12))) fallback_model_features
           [("LotArea", VInt 9000); ("GrLivArea", VInt 1710); ("HouseStyle", VStr "1Story")]).
  reflexivity.
Defined.

(** X3.  The encoded map holds numbers only, under distinct keys that are in
    the model's schema and were supplied by the caller. *)
Theorem encoded_map_invariant
    (float_str : string -> option R) (self : HousePricePredictor)
    (names : list string) (features encoded : dict value) :
  model_features self = Some names ->
  encode float_str self features = Returned encoded ->
  NoDup (keys encoded) /\
  (length encoded <= length names)%nat /\
  (forall k v, get encoded k = Some v ->
     is_number v = true /\ In k names /\ In k (keys features)).
Proof.
  intros Hnames Henc.
  destruct (encode_keys float_str self names Hnames features encoded Henc) as [Hnd Hin].
  split; [exact Hnd|].
  split; [now apply (encode_length_bound float_str self names Hnames features)|].
  intros k v Hk. split.
  - now apply (encode_numbers float_str self features encoded Henc k).
  - apply Hin. apply get_In in Hk. change k with (fst (k, v)). now apply in_map.
Qed.

Lemma encoded_map_invariant_witness :
  NoDup (keys [("GrLivArea", VFloat 1710); ("CentralAir", VInt 1)]) /\
  (length [("GrLivArea", VFloat 1710); ("CentralAir", VInt 1)]
   <= length fallback_model_features)%nat /\
  (forall k v, get [("GrLivArea", VFloat 1710); ("CentralAir", VInt 1)] k = Some v ->
     is_number v = true /\ In k fallback_model_features /\
     In k (keys [("GrLivArea", VInt 1710); ("LotArea", VInt 9000); ("CentralAir", VStr "Y")])).
Proof.
  apply (encoded_map_invariant float_digits (init (model_only (constant_model 12)))
           fallback_model_features
           [("GrLivArea", VInt 1710); ("LotArea", VInt 9000); ("CentralAir", VStr "Y")]);
    reflexivity.
Defined.

(** X4.  On a returned prediction the two counts of [info] are consistent:
    [input_features_count] and [missing_features_count] are both between 0 and
    the size of the model's schema, and they add up to it. *)
Theorem feature_counts_bounded
    (float_str : string -> option R) (self : HousePricePredictor)
    (features : dict value) (price : R) (info : dict infoval) :
  predict_price float_str self features = Returned (price, info) ->
  get info "error" = None ->
  exists names supplied missing,
    model_features self = Some names /\
    get info "input_features_count" = Some (IVal (VInt supplied)) /\
    get info "missing_features_count" = Some (IVal (VInt missing)) /\
    (0 <= supplied <= Z.of_nat (length names))%Z /\
    (0 <= missing <= Z.of_nat (length names))%Z /\
    (supplied + missing = Z.of_nat (length names))%Z.
Proof.
  intros Hp Herr.
  destruct (predict_price_success_inv float_str self features price info Hp Herr)
    as (m & encoded & model_input & prediction_log & _ & Henc & _ & _ & _ & Hinfo).
  destruct (prediction_info_lookup _ _ _ _ _ Hinfo) as (names & Hnames & Hget).
  pose proof (encode_length_bound float_str self names Hnames features encoded Henc) as Hle.
  exists names, (len encoded), (Z.of_nat (length names) - len encoded)%Z.
  split; [exact Hnames|].
  destruct (category_entries_cases (exp prediction_log)) as (label & color & Hcat).
  split; [|split].
  - rewrite Hget, Hcat.
    destruct (interval_entries_cases self model_input (exp prediction_log))
      as [-> | [std_dev ->]]; reflexivity.
  - rewrite Hget, Hcat.
    destruct (interval_entries_cases self model_input (exp prediction_log))
      as [-> | [std_dev ->]]; reflexivity.
  - unfold len. lia.
Qed.

Lemma feature_counts_bounded_witness :
  exists info names supplied missing,
    predict_price float_digits two_column_predictor [("GrLivArea", VInt 1710)]
    = Returned (exp 12, info) /\
    model_features two_column_predictor = Some names /\
    get info "input_features_count" = Some (IVal (VInt supplied)) /\
    get info "missing_features_count" = Some (IVal (VInt missing)) /\
    (0 <= supplied <= Z.of_nat (length names))%Z /\
    (0 <= missing <= Z.of_nat (length names))%Z /\
    (supplied + missing = Z.of_nat (length names))%Z.
Proof.
  destruct (predict_price_returns float_digits two_column_predictor (constant_model 12)
              ["GrLivArea"; "LotArea"] [("GrLivArea", VInt 1710)]
              [("GrLivArea", VFloat 1710)] [1710; 8000] 12
              eq_refl eq_refl (proj1 two_column_request) (proj2 two_column_request) eq_refl)
    as (info & Hp & Hinfo).
  pose proof (proj1 (prediction_info_get _ _ _ _ _ Hinfo)) as Herr.
  exists info.
  destruct (feature_counts_bounded float_digits two_column_predictor _ _ _ Hp Herr)
    as (names & supplied & missing & H).
  exists names, supplied, missing. split; [exact Hp | exact H].
Defined.

Lemma max0_bounds (x : R) : 0 <= real_of (max0 x) /\ x <= real_of (max0 x).
Proof. rewrite max0_clips. split; [apply Rmax_l | apply Rmax_r]. Qed.

(** X5.  A confidence interval in the [info] of a returned prediction
    brackets the reported price: its lower end is at least 0 and at most the
    price, its upper end is at least the price, and unless the lower end was
    clipped the price is the midpoint. *)
Theorem interval_brackets_price
    (float_str : string -> option R) (self : HousePricePredictor)
    (features : dict value) (price : R) (info : dict infoval) (ci : infoval) :
  predict_price float_str self features = Returned (price, info) ->
  get info "error" = None ->
  get info "confidence_interval" = Some ci ->
  exists lower upper,
    ci = IDict [("lower", lower); ("upper", VFloat upper)] /\
    0 <= real_of lower <= price /\
    price <= upper /\
    (0 < real_of lower -> price - real_of lower = upper - price).
Proof.
  intros Hp Herr Hci.
  destruct (predict_price_success_inv float_str self features price info Hp Herr)
    as (m & encoded & model_input & prediction_log & _ & _ & _ & _ & Hprice & Hinfo).
  destruct (prediction_info_get _ _ _ _ _ Hinfo) as (_ & _ & _ & Hget).
  rewrite Hget in Hci. rewrite <- Hprice in Hci.
  assert (Hpos : 0 < price) by (rewrite Hprice; apply exp_pos).
  unfold interval_entries in Hci.
  destruct (model self) as [m'|]; [|discriminate].
  destruct (estimators_ m') as [trees|]; [|discriminate].
  destruct (tree_predictions trees model_input) as [predictions|]; [|discriminate].
  simpl in Hci. injection Hci as <-.
  set (sigma := np_std predictions).
  assert (Hs : 0 <= sigma) by apply sqrt_pos.
  exists (max0 (price - 1.96 * sigma)), (price + 1.96 * sigma).
  split; [reflexivity|].
  destruct (max0_bounds (price - 1.96 * sigma)) as [H0 H1].
  rewrite max0_clips in *.
  split; [split; [exact H0|]|split].
  - apply Rmax_lub; lra.
  - lra.
  - intros Hlow. unfold Rmax in *. destruct (Rle_dec 0 (price - 1.96 * sigma)); lra.
Qed.

Lemma interval_brackets_price_witness :
  exists info lower upper,
    predict_price float_digits (init (model_only two_tree_model)) []
    = Returned (exp 0, info) /\
    get info "confidence_interval" = Some (IDict [("lower", lower); ("upper", VFloat upper)]) /\
    0 <= real_of lower <= exp 0 /\
    exp 0 <= upper.
Proof.
  destruct (predict_price_returns float_digits (init (model_only two_tree_model))
              two_tree_model fallback_model_features [] []
              (map (fun _ => 0) fallback_model_features) 0
              eq_refl eq_refl eq_refl eq_refl eq_refl) as (info & Hp & Hinfo).
  destruct (prediction_info_get _ _ _ _ _ Hinfo) as (Herr & _ & _ & Hci).
  exists info.
  destruct (interval_brackets_price float_digits _ _ _ _ _ Hp Herr Hci)
    as (lower & upper & Heq & Hlow & Hup & _).
  exists lower, upper. injection Heq as <- <-.
  split; [exact Hp|]. split; [exact Hci|]. split; assumption.
Defined.

(** X6.  For an attribute of the hardcoded 21-name schema the caller's
    encoded value is what the full vector carries in the attribute's slot, and
    [0.0] when the caller gave none: no hardcoded default stands in its way. *)
Theorem schema_values_reach_their_slot
    (self : HousePricePredictor) (user_inputs : dict value)
    (features : list string) (i : nat) (name : string) :
  scaler_features self = Some features ->
  nth_error features i = Some name ->
  In name fallback_model_features ->
  exists full_vector,
    create_full_feature_vector self user_inputs = Returned full_vector /\
    nth_error full_vector i = Some (get_default user_inputs name (VFloat 0)).
Proof.
  intros Hsf Hi Hin. unfold create_full_feature_vector. rewrite Hsf.
  eexists; split; [reflexivity|].
  rewrite (nth_error_map_some
             (fun feature => get_default (default_values user_inputs) feature (VFloat 0))
             _ _ _ Hi).
  unfold get_default. rewrite get_default_values.
  assert (Hnone : get hardcoded_defaults name = None).
  { simpl in Hin.
    repeat (destruct Hin as [<- | Hin]; [reflexivity|]). destruct Hin. }
  now rewrite Hnone.
Qed.

Lemma schema_values_reach_their_slot_witness :
  exists full_vector,
    create_full_feature_vector two_column_predictor [("GrLivArea", VFloat 1710)]
    = Returned full_vector /\
    nth_error full_vector 1 =
    Some (get_default [("GrLivArea", VFloat 1710)] "GrLivArea" (VFloat 0)).
Proof.
  apply (schema_values_reach_their_slot two_column_predictor _ ["LotArea"; "GrLivArea"]).
  - reflexivity.
  - reflexivity.
  - simpl. tauto.
Defined.

(* ================================================================== *)
(** ** The scaled path: columns by name *)

Lemma mapM_returned {A B : Type} (f : A -> outcome B) (l : list A) :
  forall l', mapM f l = Returned l' ->
  length l' = length l /\
  (forall i a, nth_error l i = Some a ->
     exists b, f a = Returned b /\ nth_error l' i = Some b).
Proof.
  induction l as [|a0 l IH]; intros l' H; simpl in H.
  - injection H as <-. split; [reflexivity|]. intros [|i] a Hi; discriminate.
  - destruct (f a0) as [b0|] eqn:E0; simpl in H; [|discriminate].
    destruct (mapM f l) as [bs|] eqn:El; simpl in H; [|discriminate].
    injection H as <-. destruct (IH bs eq_refl) as [Hlen Hnth].
    split; [simpl; now rewrite Hlen|].
    intros [|i] a Hi; simpl in *.
    + injection Hi as <-. eauto.
    + now apply Hnth.
Qed.

Lemma mapM_raises {A B : Type} (f : A -> outcome B) (l : list A) (a : A) (e : exn) :
  In a l -> f a = Raised e -> exists e', mapM f l = Raised e'.
Proof.
  intros Hin Hf. induction l as [|a0 l IH]; [destruct Hin|].
  simpl. destruct Hin as [-> | Hin].
  - rewrite Hf. simpl. eauto.
  - destruct (f a0); simpl; [|eauto].
    destruct (IH Hin) as [e' ->]. simpl. eauto.
Qed.

Lemma mapM_ext {A B : Type} (f g : A -> outcome B) (l : list A) :
  (forall a, In a l -> f a = g a) -> mapM f l = mapM g l.
Proof.
  induction l as [|a0 l IH]; intros H; simpl; [reflexivity|].
  rewrite (H a0) by now left. rewrite IH by (intros; apply H; now right). reflexivity.
Qed.

Lemma index_from_raises (l : list string) (x : string) :
  contains l x = false -> forall i, exists e, index_from l x i = Raised e.
Proof.
  induction l as [|y l IH]; simpl; intros H i; [eauto|].
  destruct (String.eqb x y); [discriminate | apply IH; exact H].
Qed.

(** [l.index(x)] is the first position of [x]. *)
Lemma index_from_returned (l : list string) (x : string) :
  forall i j, index_from l x i = Returned j ->
  exists j0, j = (i + j0)%nat /\ nth_error l j0 = Some x /\
             forall j', (j' < j0)%nat -> nth_error l j' <> Some x.
Proof.
  induction l as [|y l IH]; simpl; intros i j H; [discriminate|].
  destruct (String.eqb x y) eqn:E.
  - injection H as <-. apply String.eqb_eq in E; subst y.
    exists 0%nat. split; [lia|]. split; [reflexivity|]. intros j' Hj'. lia.
  - destruct (IH _ _ H) as (j0 & -> & Hnth & Hfirst).
    exists (S j0). split; [lia|]. split; [exact Hnth|].
    intros [|j'] Hj'; simpl.
    + apply String.eqb_neq in E. congruence.
    + apply Hfirst. lia.
Qed.

(** X7.  When a name of the model's schema is missing from the scaler's
    feature order, every prediction fails, whatever the input: the call
    returns price 0 and an [error] entry. *)
Theorem schema_mismatch_fails_every_prediction
    (float_str : string -> option R) (self : HousePricePredictor) (m : Model)
    (scaler_names names : list string) (missing : string) (features : dict value) :
  model self = Some m ->
  scaler_features self = Some scaler_names ->
  scaler_names <> [] ->
  model_features self = Some names ->
  In missing names ->
  contains scaler_names missing = false ->
  exists msg,
    predict_price float_str self features = Returned (0, [("error", IVal (VStr msg))]).
Proof.
  intros Hm Hsf Hne Hnames Hin Hmiss.
  assert (Hraise : forall encoded, exists e, model_input_of float_str self encoded = Raised e).
  { intros encoded. unfold model_input_of. rewrite Hsf.
    destruct scaler_names as [|n0 rest]; [congruence|].
    unfold scaled_model_input, create_full_feature_vector. rewrite Hsf. simpl.
    destruct (scaler_transform float_str self _) as [scaled_full|]; simpl; [|eauto].
    unfold iter_model_features. rewrite Hnames. simpl.
    destruct (index_from_raises (n0 :: rest) missing Hmiss 0) as [e He].
    destruct (mapM_raises (index (n0 :: rest)) names missing e Hin He) as [e' ->].
    simpl. eauto. }
  unfold predict_price, predict_body. rewrite Hm.
  destruct (encode float_str self features) as [encoded|]; simpl; [|eauto].
  destruct (Hraise encoded) as [e ->]. simpl. eauto.
Qed.

Lemma schema_mismatch_fails_every_prediction_witness :
  exists msg,
    predict_price float_digits
      (init {| house_price_model_joblib := Some (Returned (constant_model 12));
               scaler_joblib := Some (Returned (identity_scaler ["LotArea"; "GrLivArea"]));
               data_selected_features_csv := None;
               src_data_selected_features_csv := None |})
      [("GrLivArea", VInt 1710)]
    = Returned (0, [("error", IVal (VStr msg))]).
Proof.
  apply (schema_mismatch_fails_every_prediction float_digits _ (constant_model 12)
           ["LotArea"; "GrLivArea"] fallback_model_features "MSSubClass");
    try reflexivity.
  - discriminate.
  - simpl. tauto.
Defined.

(** X8.  On the scaled path the model input has one cell per model feature,
    and the cell of a feature is the scaled cell at the first position of its
    name in the scaler's feature order. *)
Theorem model_input_selects_by_name
    (float_str : string -> option R) (self : HousePricePredictor)
    (scaler_names names : list string) (encoded : dict value) (model_input : list R) :
  scaler_features self = Some scaler_names ->
  scaler_names <> [] ->
  model_features self = Some names ->
  model_input_of float_str self encoded = Returned model_input ->
  exists full_vector scaled_full,
    create_full_feature_vector self encoded = Returned full_vector /\
    scaler_transform float_str self full_vector = Returned scaled_full /\
    length model_input = length names /\
    (forall i feature, nth_error names i = Some feature ->
       exists j cell,
         nth_error scaler_names j = Some feature /\
         (forall j', (j' < j)%nat -> nth_error scaler_names j' <> Some feature) /\
         nth_error scaled_full j = Some cell /\
         nth_error model_input i = Some cell).
Proof.
  intros Hsf Hne Hnames Hin.
  unfold model_input_of in Hin. rewrite Hsf in Hin.
  destruct scaler_names as [|n0 rest]; [congruence|].
  unfold scaled_model_input in Hin.
  destruct (create_full_feature_vector self encoded) as [full_vector|];
    simpl in Hin; [|discriminate].
  destruct (scaler_transform float_str self full_vector) as [scaled_full|] eqn:Hscaled;
    simpl in Hin; [|discriminate].
  unfold iter_model_features in Hin. rewrite Hnames in Hin. simpl in Hin.
  destruct (mapM (index (n0 :: rest)) names) as [model_indices|] eqn:Hidx;
    simpl in Hin; [|discriminate].
  destruct (mapM_returned _ _ _ Hidx) as [Hlen1 Hnth1].
  destruct (mapM_returned _ _ _ Hin) as [Hlen2 Hnth2].
  exists full_vector, scaled_full.
  split; [reflexivity|]. split; [exact Hscaled|]. split; [congruence|].
  intros i feature Hi.
  destruct (Hnth1 i feature Hi) as (j & Hj & Hij).
  destruct (Hnth2 i j Hij) as (cell & Hcell & Hic).
  unfold index in Hj.
  destruct (index_from_returned _ _ _ _ Hj) as (j0 & -> & Hpos & Hfirst).
  exists j0, cell. split; [exact Hpos|]. split; [exact Hfirst|].
  split; [|exact Hic].
  unfold take_cell in Hcell. simpl in Hcell.
  destruct (nth_error scaled_full j0); [now injection Hcell as -> | discriminate].
Qed.

Lemma model_input_selects_by_name_witness :
  exists full_vector scaled_full,
    create_full_feature_vector two_column_predictor [("GrLivArea", VFloat 1710)]
    = Returned full_vector /\
    scaler_transform float_digits two_column_predictor full_vector = Returned scaled_full /\
    length [1710; 8000] = length ["GrLivArea"; "LotArea"] /\
    (forall i feature, nth_error ["GrLivArea"; "LotArea"] i = Some feature ->
       exists j cell,
         nth_error ["LotArea"; "GrLivArea"] j = Some feature /\
         (forall j', (j' < j)%nat -> nth_error ["LotArea"; "GrLivArea"] j' <> Some feature) /\
         nth_error scaled_full j = Some cell /\
         nth_error [1710; 8000] i = Some cell).
Proof.
  apply (model_input_selects_by_name float_digits two_column_predictor
           ["LotArea"; "GrLivArea"] ["GrLivArea"; "LotArea"] [("GrLivArea", VFloat 1710)]).
  - reflexivity.
  - discriminate.
  - reflexivity.
  - exact (proj2 two_column_request).
Defined.

(* ================================================================== *)
(** ** The order of the supplied attributes *)

Lemma get_Permutation {V : Type} (d d' : dict V) :
  Permutation d d' -> NoDup (keys d) -> forall k, get d' k = get d k.
Proof.
  intros Hperm Hnd k.
  assert (Hnd' : NoDup (keys d')).
  { unfold keys. eapply Permutation_NoDup; [apply Permutation_map; exact Hperm | exact Hnd]. }
  destruct (get d k) as [v|] eqn:E.
  - apply In_get_NoDup; [exact Hnd'|]. eapply Permutation_in; [exact Hperm|].
    now apply get_In.
  - apply get_None_keys. apply get_None_keys in E. intros H. apply E.
    unfold keys in *. eapply Permutation_in; [|exact H].
    apply Permutation_map. now apply Permutation_sym.
Qed.

Lemma filter_Permutation {A : Type} (f : A -> bool) (l l' : list A) :
  Permutation l l' -> Permutation (filter f l) (filter f l').
Proof.
  induction 1 as [|x l l' _ IH|x y l|l l' l'' _ IH1 _ IH2]; simpl.
  - constructor.
  - destruct (f x); [now constructor | exact IH].
  - destruct (f x), (f y); try apply Permutation_refl. apply perm_swap.
  - eapply Permutation_trans; eassumption.
Qed.

Lemma create_full_feature_vector_ext (self : HousePricePredictor) (e1 e2 : dict value) :
  (forall k, get e1 k = get e2 k) ->
  create_full_feature_vector self e1 = create_full_feature_vector self e2.
Proof.
  intros Hext. unfold create_full_feature_vector.
  destruct (scaler_features self) as [features|]; [|reflexivity].
  f_equal. apply map_ext. intros feature. unfold get_default.
  now rewrite !get_default_values, Hext.
Qed.

(** The model input depends on the encoded map through its lookups only. *)
Lemma model_input_of_ext (float_str : string -> option R) (self : HousePricePredictor)
    (e1 e2 : dict value) :
  (forall k, get e1 k = get e2 k) ->
  model_input_of float_str self e1 = model_input_of float_str self e2.
Proof.
  intros Hext. unfold model_input_of.
  assert (Hraw : raw_model_input float_str self e1 = raw_model_input float_str self e2).
  { unfold raw_model_input. destruct (iter_model_features self); simpl; [|reflexivity].
    f_equal. apply map_ext. intros f. unfold get_default. now rewrite Hext. }
  destruct (scaler_features self) as [[|n0 rest]|]; try exact Hraw.
  unfold scaled_model_input. now rewrite (create_full_feature_vector_ext self e1 e2 Hext).
Qed.

Lemma prediction_info_len (self : HousePricePredictor) (feature_array : list R)
    (prediction : R) (u1 u2 : dict value) :
  length u1 = length u2 ->
  _get_prediction_info self feature_array prediction u1 =
  _get_prediction_info self feature_array prediction u2.
Proof. intros H. unfold _get_prediction_info, len. now rewrite H. Qed.

(** X9.  A returned prediction does not depend on the order in which the
    caller's map lists its attributes: price and info are the same. *)
Theorem prediction_order_independent
    (float_str : string -> option R) (self : HousePricePredictor)
    (features features' : dict value) (price : R) (info : dict infoval) :
  Permutation features features' ->
  NoDup (keys features) ->
  predict_price float_str self features = Returned (price, info) ->
  get info "error" = None ->
  predict_price float_str self features' = Returned (price, info).
Proof.
  intros Hperm Hnd Hp Herr.
  destruct (predict_price_success_inv float_str self features price info Hp Herr)
    as (m & encoded & model_input & prediction_log & Hm & Henc & Hin & Hpred & Hprice & Hinfo).
  destruct (prediction_info_lookup _ _ _ _ _ Hinfo) as (names & Hnames & _).
  assert (Hnd' : NoDup (keys features')).
  { unfold keys. eapply Permutation_NoDup; [apply Permutation_map; exact Hperm | exact Hnd]. }
  pose proof (encode_items_get float_str self names Hnames features Hnd [] encoded Henc)
    as Hget.
  destruct (encode_items_returns float_str self names Hnames features') with (acc := @nil (string * value))
    as [encoded' Henc'].
  { intros k v Hkv Hk Hc.
    assert (Hkv' : get features k = Some v).
    { apply In_get_NoDup; [exact Hnd|].
      eapply Permutation_in; [apply Permutation_sym; exact Hperm | exact Hkv]. }
    specialize (Hget k). rewrite Hkv', Hk in Hget. destruct Hget as (e & He & _).
    rewrite (encode_value_numeric float_str k v Hc) in He.
    destruct (float float_str v) as [r|]; [eauto | discriminate]. }
  pose proof (encode_items_get float_str self names Hnames features' Hnd' [] encoded' Henc')
    as Hget'.
  assert (Hext : forall k, get encoded' k = get encoded k).
  { intros k. specialize (Hget k). specialize (Hget' k).
    rewrite (get_Permutation features features' Hperm Hnd k) in Hget'.
    destruct (get features k) as [v|].
    - destruct (contains names k).
      + destruct Hget as (e & He & ->). destruct Hget' as (e' & He' & ->). congruence.
      + congruence.
    - congruence. }
  assert (Hlen : length encoded' = length encoded).
  { rewrite (encode_items_length float_str self names Hnames features' Hnd' [] encoded' Henc')
      by reflexivity.
    rewrite (encode_items_length float_str self names Hnames features Hnd [] encoded Henc)
      by reflexivity.
    simpl. apply Permutation_length. apply filter_Permutation.
    now apply Permutation_sym. }
  unfold predict_price, predict_body. unfold encode in *.
  rewrite Hm, Henc'. simpl.
  rewrite (model_input_of_ext float_str self encoded' encoded Hext), Hin. simpl.
  rewrite Hpred. simpl.
  rewrite (prediction_info_len self model_input (exp prediction_log) encoded' encoded Hlen).
  rewrite Hinfo. simpl. now rewrite Hprice.
Qed.

Lemma prediction_order_independent_witness :
  exists info,
    predict_price float_digits (init (model_only (constant_model 12)))
      [("GrLivArea", VInt 1710); ("CentralAir", VStr "Y")] = Returned (exp 12, info) /\
    predict_price float_digits (init (model_only (constant_model 12)))
      [("CentralAir", VStr "Y"); ("GrLivArea", VInt 1710)] = Returned (exp 12, info).
Proof.
  set (self := init (model_only (constant_model 12))).
  assert (Hin : model_input_of float_digits self
                  [("GrLivArea", VFloat 1710); ("CentralAir", VInt 1)] =
                Returned (map (fun f => real_of (get_default
                                 [("GrLivArea", VFloat 1710); ("CentralAir", VInt 1)]
                                 f (VInt 0))) fallback_model_features)) by reflexivity.
  destruct (predict_price_returns float_digits self (constant_model 12)
              fallback_model_features
              [("GrLivArea", VInt 1710); ("CentralAir", VStr "Y")]
              [("GrLivArea", VFloat 1710); ("CentralAir", VInt 1)] _ 12
              eq_refl eq_refl eq_refl Hin eq_refl) as (info & Hp & Hinfo).
  pose proof (proj1 (prediction_info_get _ _ _ _ _ Hinfo)) as Herr.
  exists info. split; [exact Hp|].
  apply (prediction_order_independent float_digits self
           [("GrLivArea", VInt 1710); ("CentralAir", VStr "Y")]).
  - apply perm_swap.
  - repeat constructor; simpl; intuition discriminate.
  - exact Hp.
  - exact Herr.
Defined.

(* ================================================================== *)
(** ** Input validation *)

Lemma py_lt_numbers (a b : value) :
  is_number a = true -> is_number b = true ->
  exists r, py_lt a b = Returned r /\ (r = true <-> real_of a < real_of b).
Proof.
  destruct a as [x|x|x], b as [y|y|y]; simpl; try discriminate; intros _ _.
  - exists (x <? y)%Z. split; [reflexivity|]. rewrite Z.ltb_lt.
    split; [apply IZR_lt | apply lt_IZR].
  - destruct (Rlt_dec (IZR x) y); eexists; (split; [reflexivity|]); intuition discriminate.
  - destruct (Rlt_dec x (IZR y)); eexists; (split; [reflexivity|]); intuition discriminate.
  - destruct (Rlt_dec x y); eexists; (split; [reflexivity|]); intuition discriminate.
Qed.

Lemma py_gt_numbers (a b : value) :
  is_number a = true -> is_number b = true ->
  exists r, py_gt a b = Returned r /\ (r = true <-> real_of b < real_of a).
Proof.
  destruct a as [x|x|x], b as [y|y|y]; simpl; try discriminate; intros _ _.
  - exists (y <? x)%Z. split; [reflexivity|]. rewrite Z.ltb_lt.
    split; [apply IZR_lt | apply lt_IZR].
  - destruct (Rlt_dec y (IZR x)); eexists; (split; [reflexivity|]); intuition discriminate.
  - destruct (Rlt_dec (IZR y) x); eexists; (split; [reflexivity|]); intuition discriminate.
  - destruct (Rlt_dec y x); eexists; (split; [reflexivity|]); intuition discriminate.
Qed.

Lemma not_a_positive_number_negative (v : value) :
  is_number v = true -> (not_a_positive_number v = true <-> real_of v < 0).
Proof.
  destruct v as [z|r|s]; simpl; try discriminate; intros _.
  - rewrite Z.ltb_lt. split; [apply (IZR_lt z 0) | apply (lt_IZR z 0)].
  - destruct (Rlt_dec r 0); intuition discriminate.
Qed.

Lemma In_numeric_errors (features : dict value) (msg : string) :
  In msg (numeric_errors features) <->
  exists feature v,
    In feature numeric_features /\ get features feature = Some v /\
    not_a_positive_number v = true /\ msg = feature ++ " must be a positive number".
Proof.
  unfold numeric_errors. rewrite in_flat_map. split.
  - intros (feature & Hin & Hmsg).
    destruct (get features feature) as [v|] eqn:E; [|destruct Hmsg].
    destruct (not_a_positive_number v) eqn:Ev; [|destruct Hmsg].
    destruct Hmsg as [<- | []]. exists feature, v. auto.
  - intros (feature & v & Hin & Hget & Hv & ->).
    exists feature. split; [exact Hin|]. rewrite Hget, Hv. now left.
Qed.

(** X10.  On a map whose validated attributes are numbers [validate_input]
    returns, the flag is true exactly when the error list is empty, and that
    is exactly when the five checked attributes are not negative (zero
    passes), the remodel year is not before the year built and the living area
    is at most 10000; every violated rule has its message in the list. *)
Theorem validate_input_on_numbers (features : dict value) :
  (forall k v, In k ("YearRemodAdd" :: numeric_features) ->
               get features k = Some v -> is_number v = true) ->
  exists ok errors,
    validate_input features = Returned (ok, errors) /\
    (ok = true <-> errors = []) /\
    (ok = true <->
       (forall feature v, In feature numeric_features ->
                          get features feature = Some v -> 0 <= real_of v) /\
       (forall built remod, get features "YearBuilt" = Some built ->
                            get features "YearRemodAdd" = Some remod ->
                            real_of built <= real_of remod) /\
       (forall area, get features "GrLivArea" = Some area -> real_of area <= 10000)) /\
    (forall feature v, In feature numeric_features -> get features feature = Some v ->
                       real_of v < 0 ->
                       In (feature ++ " must be a positive number") errors) /\
    (forall built remod, get features "YearBuilt" = Some built ->
                         get features "YearRemodAdd" = Some remod ->
                         real_of remod < real_of built ->
                         In "Renovation year cannot be before construction year" errors) /\
    (forall area, get features "GrLivArea" = Some area -> 10000 < real_of area ->
                  In "Living area seems unusually large (>10,000 sq ft)" errors).
Proof.
  intros Hnum.
  assert (Hnumeric : forall feature v, In feature numeric_features ->
                       get features feature = Some v -> is_number v = true)
    by (intros; eapply Hnum; [right|]; eassumption).
  (* the renovation check *)
  assert (Hyear : exists late : bool,
            match get features "YearBuilt", get features "YearRemodAdd" with
            | Some built, Some remod =>
                before <- py_lt remod built ;;
                Returned (if (before : bool)
                          then (numeric_errors features
                                ++ ["Renovation year cannot be before construction year"])%list
                          else numeric_errors features)
            | _, _ => Returned (numeric_errors features)
            end
            = Returned (if late
                        then (numeric_errors features
                              ++ ["Renovation year cannot be before construction year"])%list
                        else numeric_errors features) /\
            (late = true <->
             exists built remod, get features "YearBuilt" = Some built /\
                                 get features "YearRemodAdd" = Some remod /\
                                 real_of remod < real_of built)).
  { destruct (get features "YearBuilt") as [built|] eqn:Eb.
    - destruct (get features "YearRemodAdd") as [remod|] eqn:Er.
      + destruct (py_lt_numbers remod built) as (r & -> & Hr).
        * apply (Hnum "YearRemodAdd"); [now left | exact Er].
        * apply (Hnumeric "YearBuilt"); [simpl; tauto | exact Eb].
        * exists r. split; [reflexivity|]. rewrite Hr. split.
          -- intros H. exists built, remod. auto.
          -- intros (b' & r' & [= <-] & [= <-] & H). exact H.
      + exists false. split; [reflexivity|]. split; [discriminate|].
        intros (b' & r' & _ & H & _). discriminate.
    - exists false. split; [reflexivity|]. split; [discriminate|].
      intros (b' & r' & H & _). discriminate. }
  destruct Hyear as (late & Hyear & Hlate).
  unfold validate_input. rewrite Hyear. simpl.
  set (errors1 := if late then _ else _).
  assert (Harea : exists large : bool,
            match get features "GrLivArea" with
            | Some area =>
                big <- py_gt area (VInt 10000) ;;
                Returned (if (big : bool)
                          then (errors1
                                ++ ["Living area seems unusually large (>10,000 sq ft)"])%list
                          else errors1)
            | None => Returned errors1
            end
            = Returned (if large
                        then (errors1
                              ++ ["Living area seems unusually large (>10,000 sq ft)"])%list
                        else errors1) /\
            (large = true <->
             exists area, get features "GrLivArea" = Some area /\ 10000 < real_of area)).
  { destruct (get features "GrLivArea") as [area|] eqn:Ea.
    - destruct (py_gt_numbers area (VInt 10000)) as (r & -> & Hr).
      + apply (Hnumeric "GrLivArea"); [simpl; tauto | exact Ea].
      + reflexivity.
      + exists r. split; [reflexivity|]. rewrite Hr. simpl. split.
        * intros H. exists area. auto.
        * intros (a' & [= <-] & H). exact H.
    - exists false. split; [reflexivity|]. split; [discriminate|].
      intros (a' & H & _). discriminate. }
  destruct Harea as (large & Harea & Hlarge).
  rewrite Harea. simpl.
  set (errors2 := if large then _ else _).
  exists (Nat.eqb (length errors2) 0), errors2.
  split; [reflexivity|].
  assert (Hnil : errors2 = [] <->
                 numeric_errors features = [] /\ late = false /\ large = false).
  { unfold errors2, errors1. destruct large, late; split.
    all: try (intros H; apply app_eq_nil in H; destruct H; discriminate).
    all: try (intros (_ & H1 & H2); discriminate).
    - intros H; auto.
    - intros (H & _ & _); exact H. }
  assert (Hok : Nat.eqb (length errors2) 0 = true <-> errors2 = []).
  { rewrite Nat.eqb_eq. apply length_zero_iff_nil. }
  split; [exact Hok|].
  split.
  - rewrite Hok, Hnil. split.
    + intros (Hn & Hl & Hg). split; [|split].
      * intros feature v Hin Hget.
        destruct (Rle_dec 0 (real_of v)) as [H | H]; [exact H | exfalso].
        assert (Hmsg : In (feature ++ " must be a positive number") (numeric_errors features)).
        { apply In_numeric_errors. exists feature, v.
          split; [exact Hin|]. split; [exact Hget|]. split; [|reflexivity].
          apply (proj2 (not_a_positive_number_negative v (Hnumeric feature v Hin Hget))).
          lra. }
        rewrite Hn in Hmsg. destruct Hmsg.
      * intros built remod Hb Hr.
        destruct (Rle_dec (real_of built) (real_of remod)) as [H | H]; [exact H | exfalso].
        assert (late = true) by (apply Hlate; exists built, remod; repeat split; auto; lra).
        congruence.
      * intros area Ha.
        destruct (Rle_dec (real_of area) 10000) as [H | H]; [exact H | exfalso].
        assert (large = true) by (apply Hlarge; exists area; split; auto; lra).
        congruence.
    + intros (Hn & Hy & Ha). split; [|split].
      * destruct (numeric_errors features) as [|msg rest] eqn:E; [reflexivity | exfalso].
        assert (Hmsg : In msg (numeric_errors features)) by (rewrite E; now left).
        apply In_numeric_errors in Hmsg.
        destruct Hmsg as (feature & v & Hin & Hget & Hv & _).
        apply (proj1 (not_a_positive_number_negative v (Hnumeric feature v Hin Hget))) in Hv.
        specialize (Hn feature v Hin Hget). lra.
      * destruct late; [exfalso | reflexivity].
        destruct (proj1 Hlate eq_refl) as (built & remod & Hb & Hr & Hlt).
        specialize (Hy built remod Hb Hr). lra.
      * destruct large; [exfalso | reflexivity].
        destruct (proj1 Hlarge eq_refl) as (area & Hget & Hgt).
        specialize (Ha area Hget). lra.
  - assert (Hsub1 : forall msg, In msg (numeric_errors features) -> In msg errors2).
    { intros msg H. unfold errors2, errors1.
      destruct large, late; rewrite ?in_app_iff; auto. }
    split; [|split].
    + intros feature v Hin Hget Hneg. apply Hsub1. apply In_numeric_errors.
      exists feature, v.
      split; [exact Hin|]. split; [exact Hget|]. split; [|reflexivity].
      now apply (proj2 (not_a_positive_number_negative v (Hnumeric feature v Hin Hget))).
    + intros built remod Hb Hr Hlt.
      assert (late = true) by (apply Hlate; exists built, remod; auto).
      subst late. unfold errors2, errors1.
      destruct large; rewrite ?in_app_iff; simpl; auto.
    + intros area Hget Hgt.
      assert (large = true) by (apply Hlarge; exists area; auto).
      subst large. unfold errors2. rewrite in_app_iff. simpl. auto.
Qed.

Lemma validate_input_on_numbers_witness :
  validate_input [("YearBuilt", VInt 2010); ("YearRemodAdd", VInt 2005); ("LotArea", VInt 0)]
  = Returned (false, ["Renovation year cannot be before construction year"]) /\
  In "Renovation year cannot be before construction year"
     ["Renovation year cannot be before construction year"].
Proof.
  destruct (validate_input_on_numbers
              [("YearBuilt", VInt 2010); ("YearRemodAdd", VInt 2005); ("LotArea", VInt 0)])
    as (ok & errors & Hrun & _ & _ & _ & Hyear & _).
  - intros k v Hk. simpl.
    destruct (String.eqb k "YearBuilt"); [now intros [= <-]|].
    destruct (String.eqb k "YearRemodAdd"); [now intros [= <-]|].
    destruct (String.eqb k "LotArea"); [now intros [= <-] | discriminate].
  - assert (Heq : validate_input
                    [("YearBuilt", VInt 2010); ("YearRemodAdd", VInt 2005); ("LotArea", VInt 0)]
                  = Returned (false, ["Renovation year cannot be before construction year"]))
      by reflexivity.
    split; [exact Heq|].
    rewrite Heq in Hrun. injection Hrun as <- <-.
    apply (Hyear (VInt 2010) (VInt 2005)); [reflexivity | reflexivity |].
    simpl. apply IZR_lt. lia.
Defined.

(** X11.  A living area given as text makes [validate_input] raise a
    [TypeError] instead of returning its list, although the first loop has
    already recorded that the value is not a number. *)
Theorem validate_input_raises_on_text_area (features : dict value) (text : string) :
  get features "GrLivArea" = Some (VStr text) ->
  In "GrLivArea must be a positive number" (numeric_errors features) /\
  exists e, validate_input features = Raised e /\ exn_type e = "TypeError".
Proof.
  intros Harea. split.
  - apply In_numeric_errors. exists "GrLivArea", (VStr text).
    split; [simpl; tauto|]. auto.
  - unfold validate_input.
    destruct (get features "YearBuilt") as [built|];
      [destruct (get features "YearRemodAdd") as [remod|]|].
    + destruct remod as [x|x|x], built as [y|y|y]; simpl;
        try (eexists; split; reflexivity);
        rewrite Harea; simpl; eexists; split; reflexivity.
    + simpl. rewrite Harea. simpl. eexists; split; reflexivity.
    + simpl. rewrite Harea. simpl. eexists; split; reflexivity.
Qed.

Lemma validate_input_raises_on_text_area_witness :
  In "GrLivArea must be a positive number"
     (numeric_errors [("GrLivArea", VStr "large")]) /\
  exists e, validate_input [("GrLivArea", VStr "large")] = Raised e /\
            exn_type e = "TypeError".
Proof.
  apply (validate_input_raises_on_text_area [("GrLivArea", VStr "large")] "large").
  reflexivity.
Defined.

(* ================================================================== *)
(** ** Feature importance *)

Lemma insert_by_score_Permutation (x : string * R) (l : list (string * R)) :
  Permutation (insert_by_score x l) (x :: l).
Proof.
  induction l as [|y l IH]; simpl; [apply Permutation_refl|].
  destruct (Rlt_dec (snd x) (snd y)); [|apply Permutation_refl].
  eapply Permutation_trans; [apply perm_skip; exact IH | apply perm_swap].
Qed.

Lemma sorted_by_score_Permutation (l : list (string * R)) :
  Permutation (sorted_by_score l) l.
Proof.
  induction l as [|x l IH]; simpl; [constructor|].
  eapply Permutation_trans; [apply insert_by_score_Permutation | now constructor].
Qed.

Lemma insert_by_score_sorted (x : string * R) (l : list (string * R)) :
  StronglySorted (fun a b => snd b <= snd a) l ->
  StronglySorted (fun a b => snd b <= snd a) (insert_by_score x l).
Proof.
  induction 1 as [|y l Hs IH Hall]; simpl; [repeat constructor|].
  destruct (Rlt_dec (snd x) (snd y)) as [Hlt | Hge].
  - constructor; [exact IH|].
    eapply Permutation_Forall; [apply Permutation_sym, insert_by_score_Permutation|].
    constructor; [lra | exact Hall].
  - constructor; [now constructor|].
    constructor; [lra|].
    eapply Forall_impl; [|exact Hall]. intros z Hz. simpl in Hz. lra.
Qed.

Lemma sorted_by_score_sorted (l : list (string * R)) :
  StronglySorted (fun a b => snd b <= snd a) (sorted_by_score l).
Proof.
  induction l as [|x l IH]; simpl; [constructor | now apply insert_by_score_sorted].
Qed.

Lemma StronglySorted_app {A : Type} (rel : A -> A -> Prop) (l1 l2 : list A) :
  StronglySorted rel (l1 ++ l2)%list ->
  StronglySorted rel l1 /\ (forall a b, In a l1 -> In b l2 -> rel a b).
Proof.
  induction l1 as [|x l1 IH]; simpl; intros H.
  - split; [constructor | intros a b []].
  - inversion H as [|? ? Hs Hall]; subst. destruct (IH Hs) as [H1 H2].
    split.
    + constructor; [exact H1|]. apply Forall_forall. intros a Ha.
      apply (proj1 (Forall_forall _ _) Hall). apply in_or_app. now left.
    + intros a b [<- | Ha] Hb.
      * apply (proj1 (Forall_forall _ _) Hall). apply in_or_app. now right.
      * now apply H2.
Qed.

Lemma set_new_app {V : Type} (d : dict V) (k : string) (v : V) :
  ~ In k (keys d) -> set d k v = (d ++ [(k, v)])%list.
Proof.
  induction d as [|[k0 v0] d IH]; simpl; intros H; [reflexivity|].
  destruct (String.eqb k k0) eqn:E.
  - apply String.eqb_eq in E. subst. tauto.
  - rewrite IH by tauto. reflexivity.
Qed.

(** Building a dictionary from pairs with distinct keys keeps the pairs. *)
Lemma update_distinct {V : Type} (entries : list (string * V)) :
  forall acc, NoDup (keys (acc ++ entries)%list) -> update acc entries = (acc ++ entries)%list.
Proof.
  unfold update.
  induction entries as [|[k v] entries IH]; intros acc Hnd; simpl.
  - now rewrite app_nil_r.
  - assert (Hk : ~ In k (keys acc)).
    { unfold keys in *. rewrite map_app in Hnd. simpl in Hnd.
      apply NoDup_remove_2 in Hnd. intros H. apply Hnd. apply in_or_app. now left. }
    rewrite (set_new_app acc k v Hk).
    rewrite IH; rewrite <- app_assoc; [reflexivity | exact Hnd].
Qed.

Lemma NoDup_keys_update {V : Type} (entries : list (string * V)) :
  forall acc, NoDup (keys acc) -> NoDup (keys (update acc entries)).
Proof.
  unfold update.
  induction entries as [|[k v] entries IH]; intros acc Hnd; simpl; [exact Hnd|].
  apply IH. now apply NoDup_keys_set.
Qed.

Lemma get_update_nil_In {V : Type} (entries : list (string * V)) (k : string) (v : V) :
  get (update [] entries) k = Some v -> In (k, v) entries.
Proof.
  rewrite get_update. destruct (get (rev entries) k) as [v'|] eqn:E; [|discriminate].
  intros [= <-]. apply in_rev. now apply get_In.
Qed.

Lemma NoDup_firstn {A : Type} (n : nat) (l : list A) : NoDup l -> NoDup (firstn n l).
Proof.
  intros H. rewrite <- (firstn_skipn n l) in H. now apply NoDup_app_remove_r in H.
Qed.

Lemma slice_to_firstn {A : Type} (l : list A) (n : Z) :
  exists count,
    slice_to l n = firstn count l /\
    ((0 <= n)%Z -> count = Z.to_nat n) /\
    ((n < 0)%Z -> count = (length l - Z.to_nat (- n))%nat).
Proof.
  unfold slice_to. destruct (0 <=? n)%Z eqn:E.
  - exists (Z.to_nat n). apply Z.leb_le in E. split; [reflexivity|]. split; [auto | lia].
  - exists (length l - Z.to_nat (- n))%nat. apply Z.leb_gt in E.
    split; [reflexivity|]. split; [lia | auto].
Qed.

(** X12.  [get_feature_importance] on a model with importances: the result
    has [top_n] entries (all of them if there are fewer; all but the last
    [-top_n] for a negative [top_n]), listed by score from high to low under
    distinct names; each entry is a model feature with the score paired to it,
    and no feature left out has a higher score than one that is listed. *)
Theorem feature_importance_top
    (self : HousePricePredictor) (m : Model) (names : list string)
    (importances : list R) (top_n : Z) :
  model self = Some m ->
  model_features self = Some names ->
  names <> [] ->
  exists top,
    get_feature_importance self (Some importances) top_n = Some top /\
    ((0 <= top_n)%Z ->
     length top = Nat.min (Z.to_nat top_n) (length (update [] (combine names importances)))) /\
    ((top_n < 0)%Z ->
     length top =
     (length (update [] (combine names importances)) - Z.to_nat (- top_n))%nat) /\
    StronglySorted (fun a b => snd b <= snd a) top /\
    NoDup (keys top) /\
    (forall k score, In (k, score) top ->
       get (update [] (combine names importances)) k = Some score /\
       In k names /\ In score importances) /\
    (forall k score, get (update [] (combine names importances)) k = Some score ->
       get top k = None ->
       forall k' score', In (k', score') top -> score <= score').
Proof.
  intros Hm Hnames Hne.
  set (ranking := update [] (combine names importances)).
  assert (Hnd : NoDup (keys ranking)) by (apply NoDup_keys_update; constructor).
  assert (Hperm : Permutation (sorted_by_score ranking) ranking)
    by apply sorted_by_score_Permutation.
  assert (Hnds : NoDup (keys (sorted_by_score ranking))).
  { unfold keys. eapply Permutation_NoDup;
      [apply Permutation_map, Permutation_sym; exact Hperm | exact Hnd]. }
  destruct (slice_to_firstn (sorted_by_score ranking) top_n) as (count & Hslice & Hpos & Hneg).
  assert (Hndt : NoDup (keys (firstn count (sorted_by_score ranking)))).
  { unfold keys. rewrite <- firstn_map. now apply NoDup_firstn. }
  exists (firstn count (sorted_by_score ranking)).
  assert (Hlen : length (sorted_by_score ranking) = length ranking)
    by now apply Permutation_length.
  pose proof (sorted_by_score_sorted ranking) as Hsorted.
  rewrite <- (firstn_skipn count (sorted_by_score ranking)) in Hsorted.
  destruct (StronglySorted_app _ _ _ Hsorted) as [Hs1 Hs2].
  split.
  { unfold get_feature_importance. rewrite Hm, Hnames.
    destruct names as [|name names']; [congruence|].
    fold ranking. rewrite Hslice. f_equal.
    now rewrite (update_distinct _ []). }
  split; [intros H; rewrite length_firstn, Hlen, (Hpos H); reflexivity|].
  split; [intros H; rewrite length_firstn, Hlen, (Hneg H); lia|].
  split; [exact Hs1|]. split; [exact Hndt|].
  split.
  - intros k score Hin.
    assert (Hr : In (k, score) ranking).
    { eapply Permutation_in; [exact Hperm|].
      rewrite <- (firstn_skipn count (sorted_by_score ranking)).
      apply in_or_app. now left. }
    split; [now apply In_get_NoDup|].
    apply In_get_NoDup in Hr; [|exact Hnd].
    apply get_update_nil_In in Hr.
    split; [eapply in_combine_l | eapply in_combine_r]; exact Hr.
  - intros k score Hget Hout k' score' Hin.
    assert (Hs : In (k, score) (sorted_by_score ranking)).
    { eapply Permutation_in; [apply Permutation_sym; exact Hperm | now apply get_In]. }
    rewrite <- (firstn_skipn count (sorted_by_score ranking)) in Hs.
    apply in_app_or in Hs. destruct Hs as [Hs | Hs].
    + exfalso. apply get_None_keys in Hout. apply Hout.
      change k with (fst (k, score)). now apply in_map.
    + exact (Hs2 (k', score') (k, score) Hin Hs).
Qed.

Lemma feature_importance_top_witness :
  exists top,
    get_feature_importance two_column_predictor (Some [0.25; 0.75]) 1 = Some top /\
    length top = 1%nat /\
    NoDup (keys top) /\
    forall k score, In (k, score) top -> In k ["GrLivArea"; "LotArea"].
Proof.
  destruct (feature_importance_top two_column_predictor (constant_model 12)
              ["GrLivArea"; "LotArea"] [0.25; 0.75] 1 eq_refl eq_refl)
    as (top & Hrun & Hlen & _ & _ & Hnd & Hin & _).
  - discriminate.
  - exists top. split; [exact Hrun|]. split; [apply Hlen; lia|]. split; [exact Hnd|].
    intros k score H. apply (Hin k score H).
Defined.

Lemma feature_importance_example :
  get_feature_importance two_column_predictor (Some [0.25; 0.75]) 1
  = Some [("LotArea", 0.75)].
Proof.
  unfold get_feature_importance. simpl.
  destruct (Rlt_dec 0.25 0.75) as [_ | H]; [reflexivity | exfalso; lra].
Qed.

(* ================================================================== *)
(** ** Price labels *)

(** X13.  Both label scales of the display are monotone in the price: a
    higher price never gets a lower label. *)
Theorem price_labels_monotone (p q : R) :
  p <= q ->
  (rank price_tier_scale (get_price_tier p) <= rank price_tier_scale (get_price_tier q))%nat /\
  (rank price_range_scale (categorize_price_range p)
   <= rank price_range_scale (categorize_price_range q))%nat.
Proof.
  intros Hpq. split.
  - unfold get_price_tier.
    repeat (match goal with
            | |- context [Rlt_dec ?a ?b] => destruct (Rlt_dec a b)
            end); simpl; try lia; exfalso; lra.
  - unfold categorize_price_range.
    repeat (match goal with
            | |- context [Rlt_dec ?a ?b] => destruct (Rlt_dec a b)
            end); simpl; try lia; exfalso; lra.
Qed.

Lemma price_labels_monotone_witness :
  (rank price_tier_scale (get_price_tier 149999)
   <= rank price_tier_scale (get_price_tier 150000))%nat /\
  (rank price_range_scale (categorize_price_range 149999)
   <= rank price_range_scale (categorize_price_range 150000))%nat.
Proof. apply (price_labels_monotone 149999 150000). lra. Defined.

Lemma prediction_info_category (self : HousePricePredictor) (feature_array : list R)
    (prediction : R) (user_inputs : dict value) (info : dict infoval) :
  _get_prediction_info self feature_array prediction user_inputs = Returned info ->
  get info "category" = get (category_entries prediction) "category".
Proof.
  intros Hinfo. destruct (prediction_info_lookup _ _ _ _ _ Hinfo) as (names & _ & Hget).
  rewrite Hget.
  destruct (category_entries_cases prediction) as (label & color & ->).
  destruct (interval_entries_cases self feature_array prediction) as [-> | [std_dev ->]];
    reflexivity.
Qed.

(** X14.  The [category] of a returned prediction against [get_price_tier]
    on the same price: "Budget" goes with "Entry Level" and conversely, but the
    two "Premium" labels never meet: the category "Premium ($400K+)" comes with
    the tier "Luxury", and the tier "Premium" with the category "Mid-range". *)
Theorem category_against_price_tier
    (float_str : string -> option R) (self : HousePricePredictor)
    (features : dict value) (price : R) (info : dict infoval) :
  predict_price float_str self features = Returned (price, info) ->
  get info "error" = None ->
  (get info "category" = Some (IVal (VStr "Budget (Under $150K)")) <->
   get_price_tier price = "Entry Level") /\
  (get info "category" = Some (IVal (VStr "Premium ($400K+)")) ->
   get_price_tier price = "Luxury") /\
  (get_price_tier price = "Premium" ->
   get info "category" = Some (IVal (VStr "Mid-range ($150K-$400K)"))).
Proof.
  intros Hp Herr.
  destruct (predict_price_success_inv float_str self features price info Hp Herr)
    as (m & encoded & model_input & prediction_log & _ & _ & _ & _ & Hprice & Hinfo).
  rewrite (prediction_info_category _ _ _ _ _ Hinfo), <- Hprice.
  unfold category_entries, get_price_tier.
  destruct (Rlt_dec price 150000); [simpl; intuition discriminate|].
  destruct (Rgt_dec price 400000) as [Hgt | Hle]; simpl.
  - destruct (Rlt_dec price 250000); [exfalso; lra|].
    destruct (Rlt_dec price 400000); [exfalso; lra|].
    intuition discriminate.
  - destruct (Rlt_dec price 250000); [intuition discriminate|].
    destruct (Rlt_dec price 400000); intuition discriminate.
Qed.

Lemma category_against_price_tier_witness :
  exists info,
    predict_price float_digits two_column_predictor [("GrLivArea", VInt 1710)]
    = Returned (exp 12, info) /\
    (get info "category" = Some (IVal (VStr "Budget (Under $150K)")) <->
     get_price_tier (exp 12) = "Entry Level") /\
    (get info "category" = Some (IVal (VStr "Premium ($400K+)")) ->
     get_price_tier (exp 12) = "Luxury") /\
    (get_price_tier (exp 12) = "Premium" ->
     get info "category" = Some (IVal (VStr "Mid-range ($150K-$400K)"))).
Proof.
  destruct (predict_price_returns float_digits two_column_predictor (constant_model 12)
              ["GrLivArea"; "LotArea"] [("GrLivArea", VInt 1710)]
              [("GrLivArea", VFloat 1710)] [1710; 8000] 12
              eq_refl eq_refl (proj1 two_column_request) (proj2 two_column_request) eq_refl)
    as (info & Hp & Hinfo).
  pose proof (proj1 (prediction_info_get _ _ _ _ _ Hinfo)) as Herr.
  exists info. split; [exact Hp|].
  exact (category_against_price_tier float_digits two_column_predictor _ _ _ Hp Herr).
Defined.

(* ================================================================== *)
(** ** The result card *)

Lemma returned_interval_shape
    (float_str : string -> option R) (self : HousePricePredictor)
    (features : dict value) (price : R) (info : dict infoval) (ci : infoval) :
  predict_price float_str self features = Returned (price, info) ->
  get info "error" = None ->
  get info "confidence_interval" = Some ci ->
  exists lower upper,
    ci = IDict [("lower", lower); ("upper", VFloat upper)] /\
    (is_number lower = true /\ 0 <= real_of lower <= price) /\
    price <= upper.
Proof.
  intros Hp Herr Hci.
  destruct (predict_price_success_inv float_str self features price info Hp Herr)
    as (m & encoded & model_input & prediction_log & _ & _ & _ & _ & Hprice & Hinfo).
  destruct (prediction_info_get _ _ _ _ _ Hinfo) as (_ & _ & _ & Hget).
  rewrite Hget in Hci. rewrite <- Hprice in Hci.
  assert (Hpos : 0 < price) by (rewrite Hprice; apply exp_pos).
  unfold interval_entries in Hci.
  destruct (model self) as [m'|]; [|discriminate].
  destruct (estimators_ m') as [trees|]; [|discriminate].
  destruct (tree_predictions trees model_input) as [predictions|]; [|discriminate].
  simpl in Hci. injection Hci as <-.
  assert (Hs : 0 <= np_std predictions) by apply sqrt_pos.
  exists (max0 (price - 1.96 * np_std predictions)), (price + 1.96 * np_std predictions).
  split; [reflexivity|].
  split; [|lra].
  split; [unfold max0; destruct (Rlt_dec 0 _); reflexivity|].
  rewrite max0_clips. split; [apply Rmax_l | apply Rmax_lub; lra].
Qed.

(** X15.  [display_prediction_result] on what [predict_price] returned
    renders: the label is "Medium", the price per square foot divides by the
    fixed 1710 (the [info] has no [living_area] entry, whatever living area was
    supplied), and the price range brackets the price.  When [info] has a
    confidence interval the range is that interval, its two ends as they
    stand, under the help text "95% confidence interval"; otherwise it is 15%
    of the price either side, under "Estimated price range". *)
Theorem card_of_returned_prediction
    (float_str : string -> option R) (self : HousePricePredictor)
    (features : dict value) (price : R) (info : dict infoval) :
  predict_price float_str self features = Returned (price, info) ->
  get info "error" = None ->
  exists card,
    display_prediction_result price info = Returned card /\
    card_confidence card = IVal (VStr "Medium") /\
    card_price_per_sqft card = price / 1710 /\
    0 <= fst (card_range card) <= price /\
    price <= snd (card_range card) /\
    (get info "confidence_interval" = None ->
     card_range card = (price - price * 0.15, price + price * 0.15) /\
     card_range_help card = "Estimated price range") /\
    (forall ci, get info "confidence_interval" = Some ci ->
       exists lower upper,
         ci = IDict [("lower", lower); ("upper", VFloat upper)] /\
         card_range card = (real_of lower, upper) /\
         card_range_help card = "95% confidence interval") /\
    card_features_used card = get_default info "input_features_count" (IVal (VStr "N/A")) /\
    card_price_category card = categorize_price_range price.
Proof.
  intros Hp Herr.
  destruct (predict_price_success_inv float_str self features price info Hp Herr)
    as (m & encoded & model_input & prediction_log & _ & _ & _ & _ & Hprice & Hinfo).
  assert (Hpos : 0 < price) by (rewrite Hprice; apply exp_pos).
  destruct (prediction_info_get _ _ _ _ _ Hinfo) as (_ & Hconf & _ & _).
  assert (Hliving : get info "living_area" = None).
  { destruct (prediction_info_lookup _ _ _ _ _ Hinfo) as (names & _ & Hget).
    rewrite Hget.
    destruct (category_entries_cases (exp prediction_log)) as (label & color & ->).
    destruct (interval_entries_cases self model_input (exp prediction_log))
      as [-> | [std_dev ->]]; reflexivity. }
  unfold display_prediction_result, get_default.
  rewrite Hconf, Hliving. simpl.
  destruct (get info "confidence_interval") as [ci|] eqn:Hci.
  - destruct (returned_interval_shape float_str self features price info ci Hp Herr Hci)
      as (lower & upper & -> & (Hnum & Hlow) & Hup).
    simpl. destruct lower as [z|r|s]; simpl in *; [| |discriminate].
    + eexists. split; [reflexivity|]. simpl.
      split; [reflexivity|]. split; [reflexivity|]. split; [exact Hlow|].
      split; [exact Hup|]. split; [discriminate|].
      split; [|split; reflexivity].
      intros ci' [= <-]. exists (VInt z), upper. auto.
    + eexists. split; [reflexivity|]. simpl.
      split; [reflexivity|]. split; [reflexivity|]. split; [exact Hlow|].
      split; [exact Hup|]. split; [discriminate|].
      split; [|split; reflexivity].
      intros ci' [= <-]. exists (VFloat r), upper. auto.
  - simpl. eexists. split; [reflexivity|]. simpl.
    split; [reflexivity|]. split; [reflexivity|]. split; [lra|]. split; [lra|].
    split; [auto|]. split; [discriminate|]. split; reflexivity.
Qed.

Lemma card_of_returned_prediction_witness :
  exists info card,
    predict_price float_digits two_column_predictor [("GrLivArea", VInt 1710)]
    = Returned (exp 12, info) /\
    display_prediction_result (exp 12) info = Returned card /\
    card_confidence card = IVal (VStr "Medium") /\
    card_price_per_sqft card = exp 12 / 1710 /\
    0 <= fst (card_range card) <= exp 12 /\
    exp 12 <= snd (card_range card).
Proof.
  destruct (predict_price_returns float_digits two_column_predictor (constant_model 12)
              ["GrLivArea"; "LotArea"] [("GrLivArea", VInt 1710)]
              [("GrLivArea", VFloat 1710)] [1710; 8000] 12
              eq_refl eq_refl (proj1 two_column_request) (proj2 two_column_request) eq_refl)
    as (info & Hp & Hinfo).
  pose proof (proj1 (prediction_info_get _ _ _ _ _ Hinfo)) as Herr.
  destruct (card_of_returned_prediction float_digits two_column_predictor _ _ _ Hp Herr)
    as (card & H1 & H2 & H3 & H4 & H5 & _).
  exists info, card. auto 10.
Defined.

(** The card of a prediction by an ensemble shows the model's interval. *)
Lemma card_shows_model_interval :
  exists info card lower upper,
    predict_price float_digits (init (model_only two_tree_model)) []
    = Returned (exp 0, info) /\
    get info "confidence_interval" = Some (IDict [("lower", lower); ("upper", VFloat upper)]) /\
    display_prediction_result (exp 0) info = Returned card /\
    card_range card = (real_of lower, upper) /\
    card_range_help card = "95% confidence interval".
Proof.
  destruct (predict_price_returns float_digits (init (model_only two_tree_model))
              two_tree_model fallback_model_features [] []
              (map (fun _ => 0) fallback_model_features) 0
              eq_refl eq_refl eq_refl eq_refl eq_refl) as (info & Hp & Hinfo).
  destruct (prediction_info_get _ _ _ _ _ Hinfo) as (Herr & _ & _ & Hci).
  destruct (returned_interval_shape float_digits _ _ _ _ _ Hp Herr Hci)
    as (lower & upper & Heq & _ & _).
  exists info, (
    {| card_confidence := IVal (VStr "Medium");
       card_price_per_sqft := exp 0 / 1710;
       card_range := (real_of lower, upper);
       card_range_help := "95% confidence interval";
       card_features_used := get_default info "input_features_count" (IVal (VStr "N/A"));
       card_price_category := categorize_price_range (exp 0) |}), lower, upper.
  rewrite <- Heq. split; [exact Hp|]. split; [exact Hci|].
  split; [|split; reflexivity].
  unfold display_prediction_result, get_default.
  rewrite (proj1 (proj2 (prediction_info_get _ _ _ _ _ Hinfo))).
  assert (Hliving : get info "living_area" = None).
  { destruct (prediction_info_lookup _ _ _ _ _ Hinfo) as (names & _ & Hget).
    rewrite Hget.
    destruct (category_entries_cases (exp 0)) as (label & color & ->).
    reflexivity. }
  rewrite Hliving, Hci. simpl. injection Heq as <- <-.
  unfold max0. destruct (Rlt_dec 0 _); reflexivity.
Qed.

(* ================================================================== *)
(** ** The confidence band of the display *)

Lemma Int_part_monotone (x y : R) : x <= y -> (Int_part x <= Int_part y)%Z.
Proof.
  intros Hxy.
  destruct (base_Int_part x) as [Hx1 Hx2]. destruct (base_Int_part y) as [Hy1 Hy2].
  assert (H : IZR (Int_part x) < IZR (Int_part y + 1)) by (rewrite plus_IZR; lra).
  apply lt_IZR in H. lia.
Qed.

Lemma Int_part_nonneg (x : R) : 0 <= x -> (0 <= Int_part x)%Z.
Proof.
  intros Hx. destruct (base_Int_part x) as [H1 H2].
  assert (H : IZR (-1) < IZR (Int_part x)) by lra.
  apply lt_IZR in H. lia.
Qed.

(** [int()] is monotone. *)
Lemma int_of_float_monotone (x y : R) : x <= y -> (int_of_float x <= int_of_float y)%Z.
Proof.
  intros Hxy. unfold int_of_float.
  destruct (Rle_dec 0 x) as [Hx | Hx], (Rle_dec 0 y) as [Hy | Hy].
  - now apply Int_part_monotone.
  - exfalso. lra.
  - assert (0 <= Int_part (- x))%Z by (apply Int_part_nonneg; lra).
    assert (0 <= Int_part y)%Z by now apply Int_part_nonneg.
    lia.
  - assert (Int_part (- y) <= Int_part (- x))%Z by (apply Int_part_monotone; lra).
    lia.
Qed.

Lemma int_of_float_below (x : R) : 0 <= x -> IZR (int_of_float x) <= x.
Proof.
  intros Hx. unfold int_of_float. destruct (Rle_dec 0 x); [|contradiction].
  apply base_Int_part.
Qed.

(** The factor chosen from the feature count. *)
Lemma display_confidence_bounds (prediction : R) (info : dict infoval) (n : Z) :
  get info "input_features_count" = Some (IVal (VInt n)) ->
  exists shown factor,
    display_confidence_interval prediction info = Returned shown /\
    (factor = 0.8 \/ factor = 1 \/ factor = 1.2) /\
    ((15 <= n)%Z -> factor = 0.8) /\
    ((10 <= n < 15)%Z -> factor = 1) /\
    ((n < 10)%Z -> factor = 1.2) /\
    lower_bound shown = int_of_float (prediction - prediction * (0.15 * factor)) /\
    upper_bound shown = int_of_float (prediction + prediction * (0.15 * factor)).
Proof.
  intros H. unfold display_confidence_interval, get_default. rewrite H. simpl.
  destruct (15 <=? n)%Z eqn:E15; simpl.
  - apply Z.leb_le in E15. eexists _, 0.8. split; [reflexivity|].
    repeat split; auto; intros; lia.
  - apply Z.leb_gt in E15. destruct (10 <=? n)%Z eqn:E10; simpl.
    + apply Z.leb_le in E10. eexists _, 1. split; [reflexivity|].
      repeat split; auto; intros; lia.
    + apply Z.leb_gt in E10. eexists _, 1.2. split; [reflexivity|].
      repeat split; auto; intros; lia.
Qed.

(** X16.  The band shown by [display_confidence_interval] for a price that is
    not negative: the lower bound is not above the upper bound nor above the
    price, and with a larger feature count the band is never wider (its lower
    bound is not lower, its upper bound not higher). *)
Theorem confidence_band_narrows_with_count
    (prediction : R) (info1 info2 : dict infoval) (n1 n2 : Z) :
  0 <= prediction ->
  get info1 "input_features_count" = Some (IVal (VInt n1)) ->
  get info2 "input_features_count" = Some (IVal (VInt n2)) ->
  (n1 <= n2)%Z ->
  exists shown1 shown2,
    display_confidence_interval prediction info1 = Returned shown1 /\
    display_confidence_interval prediction info2 = Returned shown2 /\
    (lower_bound shown2 <= upper_bound shown2)%Z /\
    IZR (lower_bound shown2) <= prediction /\
    (lower_bound shown1 <= lower_bound shown2)%Z /\
    (upper_bound shown2 <= upper_bound shown1)%Z.
Proof.
  intros Hpos H1 H2 Hle.
  destruct (display_confidence_bounds prediction info1 n1 H1)
    as (shown1 & f1 & Hrun1 & Hf1 & Ha1 & Hb1 & Hc1 & Hl1 & Hu1).
  destruct (display_confidence_bounds prediction info2 n2 H2)
    as (shown2 & f2 & Hrun2 & Hf2 & Ha2 & Hb2 & Hc2 & Hl2 & Hu2).
  assert (Hff : f2 <= f1).
  { destruct (Z_lt_le_dec n2 10) as [Hlt | Hge].
    - rewrite (Hc2 Hlt), (Hc1 ltac:(lia)). lra.
    - destruct (Z_lt_le_dec n2 15) as [Hlt15 | Hge15].
      + rewrite (Hb2 ltac:(lia)). destruct Hf1 as [-> | [-> | ->]]; try lra.
        exfalso. destruct (Z_lt_le_dec n1 10) as [Hx | Hx].
        * specialize (Hc1 Hx). lra.
        * destruct (Z_lt_le_dec n1 15) as [Hy | Hy].
          -- specialize (Hb1 (conj Hx Hy)). lra.
          -- lia.
      + rewrite (Ha2 Hge15). destruct Hf1 as [-> | [-> | ->]]; lra. }
  assert (Hf2pos : 0.8 <= f2 <= 1.2) by (destruct Hf2 as [-> | [-> | ->]]; lra).
  exists shown1, shown2.
  split; [exact Hrun1|]. split; [exact Hrun2|].
  rewrite Hl1, Hl2, Hu1, Hu2.
  split; [apply int_of_float_monotone; nra|].
  split.
  { eapply Rle_trans; [apply int_of_float_below; nra | nra]. }
  split; apply int_of_float_monotone; nra.
Qed.

Lemma confidence_band_narrows_with_count_witness :
  exists shown1 shown2,
    display_confidence_interval 200000 [("input_features_count", IVal (VInt 8))]
    = Returned shown1 /\
    display_confidence_interval 200000 [("input_features_count", IVal (VInt 21))]
    = Returned shown2 /\
    (lower_bound shown2 <= upper_bound shown2)%Z /\
    IZR (lower_bound shown2) <= 200000 /\
    (lower_bound shown1 <= lower_bound shown2)%Z /\
    (upper_bound shown2 <= upper_bound shown1)%Z.
Proof.
  apply (confidence_band_narrows_with_count 200000
           [("input_features_count", IVal (VInt 8))]
           [("input_features_count", IVal (VInt 21))] 8 21).
  - lra.
  - reflexivity.
  - reflexivity.
  - lia.
Defined.

(* ================================================================== *)
(** ** Model information *)

Lemma predict_price_result_total
    (float_str : string -> option R) (self : HousePricePredictor) (m : Model)
    (features : dict value) :
  model self = Some m ->
  exists result, predict_price float_str self features = Returned result.
Proof.
  intros Hm. unfold predict_price. rewrite Hm.
  destruct (predict_body float_str self m features); eauto.
Qed.

(** X17.  For a predictor made by the constructor the status of
    [get_model_info] tells whether [predict_price] can be called: "Loaded"
    exactly when the call returns, "Not Loaded" exactly when it raises; and
    "Not Loaded" comes with no feature list and a feature count of 0. *)
Theorem model_info_status
    (float_str : string -> option R) (a : Artifacts) (features : dict value) :
  (status (get_model_info (init a)) = "Loaded" <->
   exists result, predict_price float_str (init a) features = Returned result) /\
  (status (get_model_info (init a)) = "Not Loaded" <->
   predict_price float_str (init a) features = Raised (ValueError "Model not loaded")) /\
  (status (get_model_info (init a)) = "Not Loaded" ->
   info_model_features (get_model_info (init a)) = None /\
   feature_count (get_model_info (init a)) = 0%Z) /\
  (status (get_model_info (init a)) = "Loaded" ->
   exists names,
     info_model_features (get_model_info (init a)) = Some names /\
     feature_count (get_model_info (init a)) = Z.of_nat (length names)).
Proof.
  unfold init, _load_model.
  destruct (house_price_model_joblib a) as [[m|e]|]; destruct (_load_scaler a) as [s sf].
  - set (self := {| model := Some m; scaler := s; model_features := _; scaler_features := sf |}).
    destruct (predict_price_result_total float_str self m features eq_refl) as [result Hr].
    unfold get_model_info. simpl.
    split; [split; [eauto | reflexivity]|].
    split; [split; [discriminate | rewrite Hr; discriminate]|].
    split; [discriminate|]. eauto.
  - simpl. split; [split; [discriminate | intros [r H]; discriminate]|].
    split; [split; reflexivity|]. split; [auto | discriminate].
  - simpl. split; [split; [discriminate | intros [r H]; discriminate]|].
    split; [split; reflexivity|]. split; [auto | discriminate].
Qed.

(* ================================================================== *)
(** ** The ordinal tables *)

Lemma table_ordinals_injective (table : dict Z) :
  NoDup (map snd table) ->
  forall c1 c2 o, get table c1 = Some o -> get table c2 = Some o -> c1 = c2.
Proof.
  induction table as [|[c o'] table IH]; simpl; intros Hnd c1 c2 o; [discriminate|].
  inversion Hnd as [|? ? Hnotin Hnd']; subst.
  destruct (String.eqb c1 c) eqn:E1, (String.eqb c2 c) eqn:E2.
  - apply String.eqb_eq in E1, E2. congruence.
  - intros [= ->] H2. exfalso. apply Hnotin. apply get_In in H2.
    change o with (snd (c2, o)). now apply in_map.
  - intros H1 [= ->]. exfalso. apply Hnotin. apply get_In in H1.
    change o with (snd (c1, o)). now apply in_map.
  - now apply IH.
Qed.

Lemma categorical_tables_well_formed :
  Forall (fun entry =>
            NoDup (map snd (fst (snd entry))) /\
            exists typical, get (fst (snd entry)) typical = Some (snd (snd entry)))
         categorical_tables.
Proof.
  unfold categorical_tables.
  repeat (constructor;
          [split;
           [match goal with
            | |- NoDup ?l =>
                let H := fresh in
                assert (H : nodup Z.eq_dec l = l) by (vm_compute; reflexivity);
                rewrite <- H; apply NoDup_nodup
            end
           | simpl;
             first [ exists "RL"; reflexivity | exists "SawyerW"; reflexivity
                   | exists "Gable"; reflexivity | exists "Gd"; reflexivity
                   | exists "Mn"; reflexivity | exists "Y"; reflexivity
                   | exists "TA"; reflexivity | exists "Detchd"; reflexivity
                   | exists "RFn"; reflexivity | exists "Normal"; reflexivity ] ]|]).
  constructor.
Qed.

(** X18.  On every categorical attribute two different recognised codes
    never encode to the same ordinal, while an unrecognised code encodes
    exactly as one recognised code does, the one whose ordinal is the
    attribute's default. *)
Theorem categorical_codes_distinct
    (float_str : string -> option R) (feature : string) (table : dict Z) (default : Z) :
  In (feature, (table, default)) categorical_tables ->
  (forall c1 c2 o1 o2,
     get table c1 = Some o1 -> get table c2 = Some o2 ->
     encode_value float_str feature (VStr c1) = encode_value float_str feature (VStr c2) ->
     c1 = c2) /\
  (exists typical,
     get table typical = Some default /\
     forall code, get table code = None ->
       encode_value float_str feature (VStr code) =
       encode_value float_str feature (VStr typical)).
Proof.
  intros Hin.
  pose proof (proj1 (Forall_forall _ _) categorical_tables_well_formed _ Hin) as [Hnd Htyp].
  simpl in Hnd, Htyp.
  split.
  - intros c1 c2 o1 o2 H1 H2.
    rewrite !(encode_value_categorical float_str feature table default _ Hin).
    unfold mapping_get, get_default. rewrite H1, H2. intros [= ->].
    now apply (table_ordinals_injective table Hnd c1 c2 o2).
  - destruct Htyp as [typical Htyp]. exists typical. split; [exact Htyp|].
    intros code Hcode.
    rewrite !(encode_value_categorical float_str feature table default _ Hin).
    unfold mapping_get, get_default. now rewrite Hcode, Htyp.
Qed.

Lemma categorical_codes_distinct_witness :
  (forall c1 c2 o1 o2,
     get mapping_Neighborhood c1 = Some o1 -> get mapping_Neighborhood c2 = Some o2 ->
     encode_value float_digits "Neighborhood" (VStr c1)
     = encode_value float_digits "Neighborhood" (VStr c2) ->
     c1 = c2) /\
  (exists typical,
     get mapping_Neighborhood typical = Some 12%Z /\
     forall code, get mapping_Neighborhood code = None ->
       encode_value float_digits "Neighborhood" (VStr code) =
       encode_value float_digits "Neighborhood" (VStr typical)).
Proof.
  apply (categorical_codes_distinct float_digits "Neighborhood" mapping_Neighborhood 12).
  simpl. tauto.
Defined.

(** X19.  An unrecognised garage type, such as the form's "None", is encoded
    as "Detchd" is (ordinal 1), not as "Attchd" (4) nor as "NA" (0); an
    unrecognised basement exposure is encoded as "Mn" is (2), not as "Av" (3). *)
Theorem unrecognised_garage_and_exposure
    (float_str : string -> option R) (code : string) :
  (get mapping_GarageType code = None ->
   encode_value float_str "GarageType" (VStr code)
   = encode_value float_str "GarageType" (VStr "Detchd") /\
   encode_value float_str "GarageType" (VStr code)
   <> encode_value float_str "GarageType" (VStr "Attchd") /\
   encode_value float_str "GarageType" (VStr code)
   <> encode_value float_str "GarageType" (VStr "NA")) /\
  (get mapping_BsmtExposure code = None ->
   encode_value float_str "BsmtExposure" (VStr code)
   = encode_value float_str "BsmtExposure" (VStr "Mn") /\
   encode_value float_str "BsmtExposure" (VStr code)
   <> encode_value float_str "BsmtExposure" (VStr "Av")).
Proof.
  split; intros Hcode.
  - rewrite !(encode_value_categorical float_str "GarageType" mapping_GarageType 1)
      by (simpl; tauto).
    unfold mapping_get, get_default. rewrite Hcode. simpl.
    repeat split; discriminate.
  - rewrite !(encode_value_categorical float_str "BsmtExposure" mapping_BsmtExposure 2)
      by (simpl; tauto).
    unfold mapping_get, get_default. rewrite Hcode. simpl.
    repeat split; discriminate.
Qed.

Lemma unrecognised_garage_and_exposure_witness :
  encode_value float_digits "GarageType" (VStr "None")
  = encode_value float_digits "GarageType" (VStr "Detchd") /\
  encode_value float_digits "GarageType" (VStr "None")
  <> encode_value float_digits "GarageType" (VStr "Attchd") /\
  encode_value float_digits "GarageType" (VStr "None")
  <> encode_value float_digits "GarageType" (VStr "NA").
Proof.
  apply (proj1 (unrecognised_garage_and_exposure float_digits "None")). reflexivity.
Defined.
